(** * Fraud-classifier service: a shallow embedding of the tutorial's code

    The notebook [tutorial.ipynb] holds three pieces of Python:
    - the training cell (feature construction, [enc.fit], [xgb.fit]),
    - the registry cell ([bentoml.sklearn.save_model]),
    - the service file [fraud_detection_service.py] with [predict].

    Data frames are modelled at the level of Python objects: a frame is a
    list of column names, distinct as in every frame read from JSON or
    CSV, and a list of rows of cells.  A column has no dtype of its own:
    where a library asks for a numeric column, the column is numeric
    when it holds nothing but numbers and [np.nan].  Python floats are
    kept abstract behind the class [PyNum]: the pipeline only compares,
    orders, prints and forwards them.

    The calls into pandas, scikit-learn, XGBoost and BentoML are given
    the meaning they have for the versions the notebook pins.  The model
    store is not code of the notebook; it is modelled from the registry
    contract of the specification and marked as such. *)

From Stdlib Require Import ZArith String Ascii.
From stdpp Require Import base option list strings pretty gmap.

Local Open Scope string_scope.
Local Open Scope list_scope.

(** ** Exceptions and fallible computations *)

(** The exception classes the code and the libraries it calls can raise,
    and the error taxonomy of the model registry. *)
Inductive exn : Type :=
  | KeyError (missing : list string)
  | ValueError (msg : string)
  | TypeError (msg : string)
  | ValidationError (msg : string)
  | NotFoundError (msg : string)
  | StorageError (msg : string).

Inductive result (A : Type) : Type :=
  | Ok (a : A)
  | Raise (e : exn).
Arguments Ok {A} a.
Arguments Raise {A} e.

#[global] Instance result_ret : MRet result := λ A a, Ok a.
#[global] Instance result_bind : MBind result :=
  λ A B f m, match m with Ok a => f a | Raise e => Raise e end.

(** ** Python numbers *)

Class PyNum (num : Type) := {
  num_eqb : num → num → bool;   (* [==] *)
  num_ltb : num → num → bool;   (* [<] *)
  num_str : num → string;       (* [str] *)
  num_zero : num;               (* [0.0] *)
  num_one : num                 (* [1.0] *)
}.

(** Floats with an integral value, for concrete runs: [str(495.0)] is
    ["495.0"]. *)
#[global] Instance integral_float : PyNum Z := {|
  num_eqb := Z.eqb;
  num_ltb := Z.ltb;
  num_str := λ z, pretty z +:+ ".0";
  num_zero := 0%Z;
  num_one := 1%Z
|}.

(** ** Cells *)

(** A cell of a data frame of dtype [object]: a string, a number, or one
    of the three missing markers [None], [np.nan] and [pd.NA]. *)
Inductive cell (num : Type) : Type :=
  | Str (s : string)
  | Num (x : num)
  | PyNone
  | NaN
  | NA.
Arguments Str {num} s.
Arguments Num {num} x.
Arguments PyNone {num}.
Arguments NaN {num}.
Arguments NA {num}.

Section Frames.
Context {num : Type} `{PyNum num}.

Abbreviation ndarray := (list (list (cell num))).
Abbreviation cell := (cell num).

(** [pd.isna] *)
Definition isna (c : cell) : bool :=
  match c with
  | PyNone | NaN | NA => true
  | Str _ | Num _ => false
  end.

(** Equality as the encoder's lookup sees it: [==] on strings and
    numbers, identity on [None] and [pd.NA], and [np.nan] matching
    [np.nan] (sklearn tests nan-ness on both sides). *)
Definition cell_eqb (a b : cell) : bool :=
  match a, b with
  | Str s, Str t => String.eqb s t
  | Num x, Num y => num_eqb x y
  | PyNone, PyNone => true
  | NaN, NaN => true
  | NA, NA => true
  | _, _ => false
  end.

(** [str] *)
Definition py_str (c : cell) : string :=
  match c with
  | Str s => s
  | Num x => num_str x
  | PyNone => "None"
  | NaN => "nan"
  | NA => "<NA>"
  end.

(** ** Data frames *)

Record DataFrame : Type := mkDataFrame {
  columns : list string;
  data : ndarray
}.

Definition nrows (df : DataFrame) : nat := length (data df).

(** Position of the first column called [c]. *)
Fixpoint get_loc (c : string) (cols : list string) : option nat :=
  match cols with
  | [] => None
  | c' :: cols' => if String.eqb c c' then Some 0 else S <$> get_loc c cols'
  end.

Definition has_column (cols : list string) (c : string) : bool :=
  bool_decide (is_Some (get_loc c cols)).

(** The cell of [row] under column [c]; [NaN] where the row has none. *)
Definition cell_at (cols : list string) (row : list cell) (c : string) : cell :=
  default NaN (get_loc c cols ≫= λ i, row !! i).

(** [df[[c1, ..., cn]]]: the named columns in the requested order;
    [KeyError] with the names that are not columns of [df].  Column
    names are taken to be distinct; of two columns of one name pandas
    would return both, here the first stands for the name. *)
Definition getitem (df : DataFrame) (names : list string) : result DataFrame :=
  match filter (λ c, has_column (columns df) c = false) names with
  | [] => Ok {| columns := names;
                data := (λ row : list cell, cell_at (columns df) row <$> names) <$> data df |}
  | missing => Raise (KeyError missing)
  end.

(** [X.fillna(value)] *)
Definition fillna (value : cell) (X : DataFrame) : DataFrame :=
  {| columns := columns X;
     data := (λ row : list cell, (λ c, if isna c then value else c) <$> row) <$> data X |}.

(** [df.to_numpy()] *)
Definition to_numpy (df : DataFrame) : ndarray := data df.

(** [pd.DataFrame(values, columns=names)]: every row must be as wide as
    [names]. *)
Definition DataFrame_init (values : ndarray) (names : list string) : result DataFrame :=
  if forallb (λ row, length row =? length names)%nat values
  then Ok {| columns := names; data := values |}
  else Raise (ValueError "Shape of passed values does not match the columns").

(** Replace the [i]-th cell of each row by the matching cell of [col]. *)
Definition set_column (i : nat) (rows : ndarray) (col : list cell) : ndarray :=
  zip_with (λ (row : list cell) c, <[i:=c]> row) rows col.

(** [X[key] = values] for a two-dimensional [values]: it must have one
    row per row of [X] and a single column.  An existing column [key] is
    overwritten in place, otherwise the column is added last. *)
Definition setitem (X : DataFrame) (key : string) (values : ndarray) : result DataFrame :=
  if negb (length values =? nrows X)%nat
  then Raise (ValueError "Length of values does not match length of index")
  else if negb (forallb (λ row, length row =? 1)%nat values)
  then Raise (ValueError "Expected a 1D array")
  else
    let col := concat values in
    match get_loc key (columns X) with
    | Some i => Ok {| columns := columns X; data := set_column i (data X) col |}
    | None => Ok {| columns := columns X ++ [key];
                    data := zip_with (λ (row : list cell) c, row ++ [c]) (data X) col |}
    end.

(** ** The input adapter [PandasDataFrame()]

    The adapter is code of BentoML and pandas ([pd.read_json]), which
    the notebook only names.  The request body is a JSON array of
    objects, read with orient "records": the columns are the keys in
    order of first appearance, and a record without a key gets [np.nan]
    there.  The values are taken as the body has them, JSON [null] as
    [None]: the conversions the parser applies to a whole column
    (numbers written as strings, [null] in a column of numbers, integers
    too large for 64 bits) are not part of this model, which is meant
    for bodies that need none. *)

Fixpoint dict_get (k : string) (r : list (string * cell)) : option cell :=
  match r with
  | [] => None
  | (k', v) :: r' =>
      match dict_get k r' with
      | Some w => Some w
      | None => if String.eqb k k' then Some v else None
      end
  end.

Fixpoint ordered_union (seen ks : list string) : list string :=
  match ks with
  | [] => []
  | k :: ks' =>
      if existsb (String.eqb k) seen then ordered_union seen ks'
      else k :: ordered_union (k :: seen) ks'
  end.

Definition record_keys (batch : list (list (string * cell))) : list string :=
  ordered_union [] (batch ≫= λ r, r.*1).

Definition from_records (batch : list (list (string * cell))) : DataFrame :=
  let cols := record_keys batch in
  {| columns := cols;
     data := (λ r, (λ c, default NaN (dict_get c r)) <$> cols) <$> batch |}.

(** ** Running a fallible function over a list *)

Fixpoint traverse {A B} (f : A → result B) (l : list A) : result (list B) :=
  match l with
  | [] => Ok []
  | x :: l' => y ← f x; ys ← traverse f l'; Ok (y :: ys)
  end.

(** ** [sklearn.preprocessing.OneHotEncoder] *)

Inductive unknown_policy : Type := UnknownError | UnknownIgnore.

Record OneHotEncoder : Type := mkOneHotEncoder {
  handle_unknown : unknown_policy;
  feature_names_in_ : list string;
  categories_ : ndarray
}.

(** [<] as [sorted] uses it: defined within strings and within numbers,
    [TypeError] otherwise. *)
Definition py_lt (a b : cell) : result bool :=
  match a, b with
  | Str s, Str t => Ok (String.ltb s t)
  | Num x, Num y => Ok (num_ltb x y)
  | _, _ => Raise (TypeError "Encoders require their input to be uniformly strings or numbers")
  end.

Fixpoint insert_sorted (x : cell) (l : list cell) : result (list cell) :=
  match l with
  | [] => Ok [x]
  | y :: l' =>
      lt ← py_lt x y;
      if (lt : bool) then Ok (x :: y :: l')
      else r ← insert_sorted x l'; Ok (y :: r)
  end.

Fixpoint py_sorted (l : list cell) : result (list cell) :=
  match l with
  | [] => Ok []
  | x :: l' => s ← py_sorted l'; insert_sorted x s
  end.

(** [set(values)], first occurrences kept. *)
Fixpoint py_set (seen values : list cell) : list cell :=
  match values with
  | [] => []
  | v :: values' =>
      if existsb (cell_eqb v) seen then py_set seen values'
      else v :: py_set (v :: seen) values'
  end.

Definition is_none (c : cell) : bool := match c with PyNone => true | _ => false end.
Definition is_nan (c : cell) : bool := match c with NaN => true | _ => false end.

(** sklearn's [_unique_python]: the sorted distinct values, then [None]
    and [nan] when the column has them. *)
Definition unique_python (values : list cell) : result (list cell) :=
  let uniques := py_set [] values in
  s ← py_sorted (filter (λ c, is_none c || is_nan c = false) uniques);
  Ok (s ++ (if existsb is_none uniques then [PyNone] else [])
        ++ (if existsb is_nan uniques then [NaN] else [])).

Definition column_values (X : DataFrame) (j : nat) : list cell :=
  (λ row : list cell, default NaN (row !! j)) <$> data X.

(** [enc.fit(X)]: one list of categories per column of [X]. *)
Definition fit (policy : unknown_policy) (X : DataFrame) : result OneHotEncoder :=
  if (nrows X =? 0)%nat
  then Raise (ValueError "Found array with 0 sample(s)")
  else
    cats ← traverse (λ j, unique_python (column_values X j)) (seq 0 (length (columns X)));
    Ok {| handle_unknown := policy;
          feature_names_in_ := columns X;
          categories_ := cats |}.

Fixpoint cat_index (c : cell) (cats : list cell) : option nat :=
  match cats with
  | [] => None
  | t :: cats' => if cell_eqb c t then Some 0 else S <$> cat_index c cats'
  end.

Definition zeros (n : nat) : list cell := replicate n (Num num_zero).

(** The block of output columns of one feature for one cell. *)
Definition encode_cell (policy : unknown_policy) (cats : list cell) (c : cell)
  : result (list cell) :=
  match cat_index c cats with
  | Some i => Ok (<[i := Num num_one]> (zeros (length cats)))
  | None =>
      match policy with
      | UnknownIgnore => Ok (zeros (length cats))
      | UnknownError => Raise (ValueError "Found unknown categories")
      end
  end.

Fixpoint encode_row (policy : unknown_policy) (cats : ndarray) (row : list cell)
  : result (list cell) :=
  match cats, row with
  | cs :: cats', c :: row' =>
      b ← encode_cell policy cs c;
      rest ← encode_row policy cats' row';
      Ok (b ++ rest)
  | _, _ => Ok []
  end.

(** [enc.transform(X).toarray()]: the number of features is checked
    first, then each column must have a sample. *)
Definition transform (enc : OneHotEncoder) (X : DataFrame) : result ndarray :=
  if negb (length (columns X) =? length (categories_ enc))%nat
  then Raise (ValueError "X has a different number of features than the encoder")
  else if (nrows X =? 0)%nat
  then Raise (ValueError "Found array with 0 sample(s)")
  else traverse (encode_row (handle_unknown enc) (categories_ enc)) (data X).

(** [enc.get_feature_names_out()] *)
Definition get_feature_names_out (enc : OneHotEncoder) : list string :=
  concat (zip_with (λ f (cats : list cell), (λ t, f +:+ "_" +:+ py_str t) <$> cats)
            (feature_names_in_ enc) (categories_ enc)).

(** ** The classifier and its runner

    [XGBClassifier(objective="binary:logistic")]: for this objective
    [predict] thresholds the probability of each row at 0.5 and takes
    class index 1 above it, class index 0 otherwise.  The index is then
    decoded by the label encoder fitted on the training labels; for the
    labels of the notebook the two are the same number (see [xgb_fit]
    and [model_predict_row] below). *)
Record XGBClassifier : Type := mkXGBClassifier {
  proba_above_half : list cell → bool
}.

Definition predict_row (model : XGBClassifier) (row : list cell) : Z :=
  if proba_above_half model row then 1%Z else 0%Z.

(** What a column of a numeric dtype holds: numbers and [np.nan]. *)
Definition is_numeric (c : cell) : bool :=
  match c with
  | Num _ | NaN => true
  | Str _ | PyNone | NA => false
  end.

(** [runner.predict.run(X)], batched along dimension 0.  XGBoost takes
    a frame whose columns are all numeric and raises [ValueError] on any
    other. *)
Definition run (runner : XGBClassifier) (X : DataFrame) : result (list Z) :=
  if forallb (forallb is_numeric) (data X)
  then Ok (predict_row runner <$> data X)
  else Raise (ValueError "DataFrame.dtypes for data must be int, float, bool or category").

(** ** The service function *)

Definition predict (ohe_encoder : OneHotEncoder) (fraud_classifier_runner : XGBClassifier)
    (df : DataFrame) : result (list Z) :=
  X ← getitem df ["ProductCD"; "P_emaildomain"; "R_emaildomain"; "card4"; "M1"; "M2"; "M3"];
  let X := fillna NA X in
  arr ← transform ohe_encoder X;
  X ← DataFrame_init arr (get_feature_names_out ohe_encoder);
  amt ← getitem df ["TransactionAmt"];
  X ← setitem X "TransactionAmt" (to_numpy amt);
  run fraud_classifier_runner X.

(** The matrix [predict] hands to the runner. *)
Definition predict_input (ohe_encoder : OneHotEncoder) (df : DataFrame) : result DataFrame :=
  X ← getitem df ["ProductCD"; "P_emaildomain"; "R_emaildomain"; "card4"; "M1"; "M2"; "M3"];
  let X := fillna NA X in
  arr ← transform ohe_encoder X;
  X ← DataFrame_init arr (get_feature_names_out ohe_encoder);
  amt ← getitem df ["TransactionAmt"];
  setitem X "TransactionAmt" (to_numpy amt).

(** ** The training cell: feature construction *)

Definition training_features (df : DataFrame) : result (OneHotEncoder * DataFrame) :=
  X ← getitem df ["ProductCD"; "P_emaildomain"; "R_emaildomain"; "card4"; "M1"; "M2"; "M3"];
  enc ← fit UnknownIgnore X;
  arr ← transform enc X;
  X ← DataFrame_init arr (get_feature_names_out enc);
  amt ← getitem df ["TransactionAmt"];
  X ← setitem X "TransactionAmt" (to_numpy amt);
  Ok (enc, X).

(** ** The service object and its single route

    [svc = bentoml.Service("fraud_classifier", runners=[...])] with
    [@svc.api(input=PandasDataFrame(), output=JSON(),
    route="/fraud-classifier")] on [predict]. *)

Record Service : Type := mkService {
  ohe_encoder : OneHotEncoder;
  fraud_classifier_runner : XGBClassifier
}.

Inductive http_method : Type := GET | POST.

Record request : Type := mkRequest {
  req_method : http_method;
  req_path : string;
  req_body : list (list (string * cell))
}.

Inductive response : Type :=
  | Labels (body : list Z)
  | Failed (e : exn)
  | NotFound
  | MethodNotAllowed.

(** The route table built by the decorator. *)
Definition apis (svc : Service) : list (string * (DataFrame → result (list Z))) :=
  [("/fraud-classifier", predict (ohe_encoder svc) (fraud_classifier_runner svc))].

Fixpoint find_route {A} (path : string) (table : list (string * A)) : option A :=
  match table with
  | [] => None
  | (p, f) :: table' => if String.eqb path p then Some f else find_route path table'
  end.

Definition handle (svc : Service) (req : request) : response :=
  match find_route (req_path req) (apis svc) with
  | None => NotFound
  | Some api =>
      match req_method req with
      | POST =>
          match api (from_records (req_body req)) with
          | Ok labels => Labels labels
          | Raise e => Failed e
          end
      | GET => MethodNotAllowed
      end
  end.

(** The process answers requests one after the other; [predict] assigns
    no global, so the service object is the same for each. *)
Definition serve (svc : Service) (reqs : list request) : list response :=
  handle svc <$> reqs.

(** ** The model registry *)

Record ModelSignature : Type := mkSignature {
  batchable : bool;
  batch_dim : Z
}.

Record Artifact : Type := mkArtifact {
  art_model : XGBClassifier;
  art_labels : gmap string string;
  art_metadata : gmap string string;
  art_custom_objects : gmap string OneHotEncoder;
  art_signatures : gmap string ModelSignature
}.

Inductive version_tag : Type := Latest | Version (n : nat).

(** Modelled from the spec: the model store behind
    [bentoml.sklearn.save_model] and [bentoml.models.get] is not part of
    the notebook.  Following the registry contract, each name owns an
    append-only sequence of versions, tagged by the order in which they
    were written; ["latest"] points at the last one. *)
Record Store : Type := mkStore {
  reachable : bool;
  supports : ModelSignature → bool;
  entries : gmap string (list Artifact)
}.

Definition versions_of (name : string) (s : Store) : list Artifact :=
  default [] (entries s !! name).

(** Modelled from the spec: [save] persists its inputs under a new
    immutable version of [name]; [StorageError] when the store is
    unreachable, [ValidationError] when [name] is empty or a signature
    declares an unsupported batching mode. *)
Definition save_model (name : string) (model : XGBClassifier)
    (labels metadata : gmap string string)
    (custom_objects : gmap string OneHotEncoder)
    (signatures : gmap string ModelSignature)
    (s : Store) : result (string * version_tag) * Store :=
  if negb (reachable s) then (Raise (StorageError "store unreachable"), s)
  else if String.eqb name "" then (Raise (ValidationError "empty name"), s)
  else if negb (forallb (λ kv, supports s kv.2) (map_to_list signatures))
  then (Raise (ValidationError "unsupported batching mode"), s)
  else
    let old := versions_of name s in
    let art := {| art_model := model; art_labels := labels; art_metadata := metadata;
                  art_custom_objects := custom_objects; art_signatures := signatures |} in
    (Ok (name, Version (length old)),
     {| reachable := reachable s; supports := supports s;
        entries := <[name := old ++ [art]]> (entries s) |}).

(** Modelled from the spec: [load] resolves the tag to a concrete
    version; [NotFoundError] when there is no such name or tag. *)
Definition get (name : string) (tag : version_tag) (s : Store) : result Artifact :=
  match tag with
  | Latest =>
      match last (versions_of name s) with
      | Some art => Ok art
      | None => Raise (NotFoundError name)
      end
  | Version n =>
      match versions_of name s !! n with
      | Some art => Ok art
      | None => Raise (NotFoundError name)
      end
  end.

(** The head of the service file: the encoder is the custom object
    ["ohe_encoder"] of [fraud_classifier:latest], the runner wraps the
    model of [fraud_classifier:latest]. *)
Definition load_service (s : Store) : result Service :=
  m ← get "fraud_classifier" Latest s;
  enc ← match art_custom_objects m !! "ohe_encoder" with
        | Some e => Ok e
        | None => Raise (KeyError ["ohe_encoder"])
        end;
  m' ← get "fraud_classifier" Latest s;
  Ok {| ohe_encoder := enc; fraud_classifier_runner := art_model m' |}.

(** The registry cell of the notebook: the model goes in under the name
    [fraud_classifier], with the encoder as custom object
    [ohe_encoder]. *)
Definition saved_model (model : XGBClassifier) (enc : OneHotEncoder) (s : Store)
  : result (string * version_tag) * Store :=
  save_model "fraud_classifier" model
    {["owner" := "Cerebrium"; "stage" := "prod"]}
    {["version" := "1.0.0"]}
    {["ohe_encoder" := enc]}
    {["predict" := {| batchable := true; batch_dim := 0 |}]}
    s.

(** ** Vocabulary of the statements *)

(** The fields [predict] reads. *)
Definition schema_fields : list string :=
  ["ProductCD"; "P_emaildomain"; "R_emaildomain"; "card4"; "M1"; "M2"; "M3";
   "TransactionAmt"].

(** [df.columns.is_unique] *)
Fixpoint is_unique (cols : list string) : bool :=
  match cols with
  | [] => true
  | c :: cols' => negb (existsb (String.eqb c) cols') && is_unique cols'
  end.

(** Every categorical cell is a string or a missing marker. *)
Definition string_categories (df : DataFrame) : bool :=
  forallb (λ row : list cell,
             forallb (λ c, match cell_at (columns df) row c with
                           | Num _ => false
                           | _ => true
                           end)
               ["ProductCD"; "P_emaildomain"; "R_emaildomain"; "card4"; "M1"; "M2"; "M3"])
    (data df).

(** Every [TransactionAmt] is a number or [np.nan]. *)
Definition numeric_amounts (df : DataFrame) : bool :=
  forallb (λ row : list cell, is_numeric (cell_at (columns df) row "TransactionAmt"))
    (data df).

(** A valid batch as a frame: the eight schema columns under distinct
    column names, at least one row, categorical values that are strings
    or missing, and numeric amounts. *)
Definition valid_frame (df : DataFrame) : bool :=
  forallb (has_column (columns df)) schema_fields
  && negb (nrows df =? 0)%nat
  && is_unique (columns df)
  && string_categories df
  && numeric_amounts df.

(** An encoder fitted on [n] columns. *)
Definition fitted (n : nat) (enc : OneHotEncoder) : Prop :=
  length (feature_names_in_ enc) = n ∧ length (categories_ enc) = n.

(** The one-hot block of a cell when unknown values are ignored. *)
Definition one_hot (cats : list cell) (c : cell) : list cell :=
  match cat_index c cats with
  | Some i => <[i := Num num_one]> (zeros (length cats))
  | None => zeros (length cats)
  end.

Definition one_hot_row (cats : ndarray) (row : list cell) : list cell :=
  concat (zip_with one_hot cats row).

(** The row of the assembled matrix that belongs to [row]. *)
Definition assemble_row (enc : OneHotEncoder) (cols : list string) (row : list cell)
  : list cell :=
  one_hot_row (categories_ enc)
    ((λ c, let v := cell_at cols row c in if isna v then NA else v) <$>
       ["ProductCD"; "P_emaildomain"; "R_emaildomain"; "card4"; "M1"; "M2"; "M3"])
  ++ [cell_at cols row "TransactionAmt"].

(** The row of the training matrix that belongs to [row]. *)
Definition training_row (enc : OneHotEncoder) (cols : list string) (row : list cell)
  : list cell :=
  one_hot_row (categories_ enc)
    (cell_at cols row <$>
       ["ProductCD"; "P_emaildomain"; "R_emaildomain"; "card4"; "M1"; "M2"; "M3"])
  ++ [cell_at cols row "TransactionAmt"].

(** Width of the encoding: one output column per category. *)
Definition encoded_width (cats : list (list cell)) : nat := sum_list (length <$> cats).

Fixpoint has_underscore (s : string) : bool :=
  match s with
  | EmptyString => false
  | String a s' => Ascii.eqb a "_"%char || has_underscore s'
  end.

(** Two records agree on the fields [names]. *)
Definition agree_on (names : list string) (r1 r2 : list (string * cell)) : Prop :=
  ∀ c, c ∈ names → dict_get c r1 = dict_get c r2.

End Frames.

Arguments DataFrame num : clear implicits.
Arguments OneHotEncoder num : clear implicits.
Arguments XGBClassifier num : clear implicits.
Arguments Service num : clear implicits.
Arguments request num : clear implicits.
Arguments Artifact num : clear implicits.
Arguments Store num : clear implicits.

(** ** Concrete objects

    Floats with an integral value are enough for the walkthrough's
    request and for small training frames. *)

(** The body of the POST request shown in the notebook. *)
Definition example_body : list (list (string * cell Z)) :=
  [[("isFraud", Num 0%Z); ("TransactionAmt", Num 495%Z); ("ProductCD", Str "W");
    ("card4", Str "visa"); ("P_emaildomain", Str "live.com");
    ("R_emaildomain", PyNone); ("M1", Str "T"); ("M2", Str "T"); ("M3", Str "T")]].

Definition example_request : request Z :=
  {| req_method := POST; req_path := "/fraud-classifier"; req_body := example_body |}.

(** The row [predict] assembles for that request. *)
Definition example_features (enc : OneHotEncoder Z) : list (cell Z) :=
  one_hot_row (categories_ enc)
    [Str "W"; Str "live.com"; NA; Str "visa"; Str "T"; Str "T"; Str "T"]
  ++ [Num 495%Z].

(** The same record with other values in fields outside the schema. *)
Definition example_body_extra : list (list (string * cell Z)) :=
  [[("isFraud", Num 1%Z); ("TransactionID", Num 2987000%Z);
    ("TransactionAmt", Num 495%Z); ("ProductCD", Str "W");
    ("card4", Str "visa"); ("P_emaildomain", Str "live.com");
    ("R_emaildomain", PyNone); ("M1", Str "T"); ("M2", Str "T"); ("M3", Str "T")]].

(** A request without [TransactionAmt]. *)
Definition no_amount_body : list (list (string * cell Z)) :=
  [[("ProductCD", Str "W"); ("card4", Str "visa"); ("P_emaildomain", Str "live.com");
    ("R_emaildomain", PyNone); ("M1", Str "T"); ("M2", Str "T"); ("M3", Str "T")]].

(** A request with a card network the training data does not have. *)
Definition unseen_card_body : list (list (string * cell Z)) :=
  [[("TransactionAmt", Num 30%Z); ("ProductCD", Str "W"); ("card4", Str "discover");
    ("P_emaildomain", Str "live.com"); ("R_emaildomain", Str "gmail.com");
    ("M1", Str "T"); ("M2", Str "T"); ("M3", Str "T")]].

(** A two-row training frame as [read_csv] gives it: empty fields are
    [np.nan]. *)
Definition small_train : DataFrame Z :=
  {| columns := ["isFraud"; "TransactionAmt"; "ProductCD"; "card4"; "P_emaildomain";
                 "R_emaildomain"; "M1"; "M2"; "M3"];
     data := [ [Num 0%Z; Num 495%Z; Str "W"; Str "visa"; Str "live.com"; NaN;
                Str "T"; Str "T"; Str "T"];
               [Num 1%Z; Num 20%Z; Str "C"; Str "mastercard"; Str "gmail.com";
                Str "gmail.com"; NaN; NaN; NaN] ] |}.

(** The encoder fitted on [small_train]. *)
Definition small_enc : OneHotEncoder Z :=
  {| handle_unknown := UnknownIgnore;
     feature_names_in_ :=
       ["ProductCD"; "P_emaildomain"; "R_emaildomain"; "card4"; "M1"; "M2"; "M3"];
     categories_ :=
       [[Str "C"; Str "W"]; [Str "gmail.com"; Str "live.com"]; [Str "gmail.com"; NaN];
        [Str "mastercard"; Str "visa"]; [Str "T"; NaN]; [Str "T"; NaN]; [Str "T"; NaN]] |}.

Definition small_columns : list string :=
  ["ProductCD_C"; "ProductCD_W"; "P_emaildomain_gmail.com"; "P_emaildomain_live.com";
   "R_emaildomain_gmail.com"; "R_emaildomain_nan"; "card4_mastercard"; "card4_visa";
   "M1_T"; "M1_nan"; "M2_T"; "M2_nan"; "M3_T"; "M3_nan"; "TransactionAmt"].

(** The training matrix of [small_train]. *)
Definition small_training_matrix : DataFrame Z :=
  {| columns := small_columns;
     data := [Num <$> [0; 1; 0; 1; 0; 1; 0; 1; 1; 0; 1; 0; 1; 0; 495];
              Num <$> [1; 0; 1; 0; 1; 0; 1; 0; 0; 1; 0; 1; 0; 1; 20]]%Z |}.

(** The matrix [predict] builds from the same frame. *)
Definition small_serving_matrix : DataFrame Z :=
  {| columns := small_columns;
     data := [Num <$> [0; 1; 0; 1; 0; 0; 0; 1; 1; 0; 1; 0; 1; 0; 495];
              Num <$> [1; 0; 1; 0; 1; 0; 1; 0; 0; 0; 0; 0; 0; 0; 20]]%Z |}.

(** Two classifiers: one that never goes above the threshold, one that
    does for amounts over 100. *)
Definition never_fraud : XGBClassifier Z :=
  {| proba_above_half := λ _, false |}.

Definition large_amount : XGBClassifier Z :=
  {| proba_above_half := λ row,
       match last row with
       | Some (Num a) => (100 <? a)%Z
       | _ => false
       end |}.

Definition empty_store : Store Z :=
  {| reachable := true; supports := λ _, true; entries := ∅ |}.

Definition small_service : Service Z :=
  {| ohe_encoder := small_enc; fraud_classifier_runner := large_amount |}.

Definition no_amount_request : request Z :=
  {| req_method := POST; req_path := "/fraud-classifier"; req_body := no_amount_body |}.

Definition predict_signature : gmap string ModelSignature :=
  {["predict" := {| batchable := true; batch_dim := 0 |}]}.

(** ** The rest of the training cell and further vocabulary *)

Section TrainingData.
Context {num : Type} `{PyNum num}.

Abbreviation cell := (cell num).

(** The categorical cells of a row as [predict] hands them to the
    encoder: selected in the order of the list, missing values as
    [pd.NA]. *)
Definition encoder_input (cols : list string) (row : list cell) : list cell :=
  (λ c, let v := cell_at cols row c in if isna v then NA else v) <$>
    ["ProductCD"; "P_emaildomain"; "R_emaildomain"; "card4"; "M1"; "M2"; "M3"].

(** Attribute access on a frame: [df.name] is the column when there is
    one, and raises [AttributeError] otherwise. *)
Inductive attr (A : Type) : Type :=
  | Attr (a : A)
  | AttributeError (name : string).

(** [cell == x] for a number [x]. *)
Definition eq_scalar (x : num) (c : cell) : bool :=
  match c with
  | Num y => num_eqb y x
  | _ => false
  end.

(** The rows of [df[df.name == x]]. *)
Definition rows_where (df : DataFrame num) (name : string) (x : num) : list (list cell) :=
  filter (λ row, eq_scalar x (cell_at (columns df) row name) = true) (data df).

(** [df.sample(n=n)] without replacement; [draw] is the list of row
    positions the random generator returns. *)
Definition sample (draw : list nat) (n : nat) (df : DataFrame num) : result (DataFrame num) :=
  if (nrows df <? n)%nat
  then Raise (ValueError "Cannot take a larger sample than population when 'replace=False'")
  else Ok {| columns := columns df; data := omap (λ i, data df !! i) draw |}.

(** The first statement of the training cell after [read_csv]:
    [pd.concat([df[df.isFraud == 0].sample(n=len(df[df.isFraud == 1])),
    df[df.isFraud == 1]], axis=0)]. *)
Definition balance (draw : list nat) (df : DataFrame num) : attr (result (DataFrame num)) :=
  if has_column (columns df) "isFraud" then
    Attr _
      (sampled ← sample draw (length (rows_where df "isFraud" num_one))
                  {| columns := columns df; data := rows_where df "isFraud" num_zero |};
       Ok {| columns := columns sampled;
             data := data sampled ++ rows_where df "isFraud" num_one |})
  else AttributeError _ "isFraud".

(** What the generator promises for a population of [population] rows
    and a sample of [n]: [n] distinct positions. *)
Definition valid_draw (population n : nat) (draw : list nat) : Prop :=
  length draw = n ∧ NoDup draw ∧ Forall (λ i, i < population)%nat draw.

(** [df.name] for a column: the cells of the column, one per row. *)
Definition getattr (df : DataFrame num) (name : string) : attr (list cell) :=
  if has_column (columns df) name
  then Attr _ ((λ row : list cell, cell_at (columns df) row name) <$> data df)
  else AttributeError _ name.

(** Selection by position, as [train_test_split] does it with the
    positions its shuffle puts in the training part. *)
Definition iloc {A} (positions : list nat) (l : list A) : list A :=
  omap (λ i, l !! i) positions.

(** [np.unique(y)] on labels that are all numbers or all strings: the
    distinct values in ascending order. *)
Definition np_unique (y : list cell) : result (list cell) :=
  py_sorted (py_set [] y).

(** What [xgb.fit(X_train, y_train)] returns: the boosted trees behind
    their threshold, and the classes of the label encoder fitted on
    [y_train]. *)
Record FittedModel : Type := mkFittedModel {
  booster : XGBClassifier num;
  classes_ : list cell
}.

(** [xgb.fit(X_train, y_train)].  The growing of the trees is not
    modelled: [learn] stands for it. *)
Definition xgb_fit (learn : DataFrame num → list cell → XGBClassifier num)
    (X_train : DataFrame num) (y_train : list cell) : result FittedModel :=
  classes ← np_unique y_train;
  Ok {| booster := learn X_train y_train; classes_ := classes |}.

(** [le.inverse_transform]: the class at a class index; [ValueError]
    when there is no such class. *)
Definition inverse_transform (classes : list cell) (index : Z) : result cell :=
  if (index <? 0)%Z then Raise (ValueError "y contains previously unseen labels")
  else
    match classes !! Z.to_nat index with
    | Some c => Ok c
    | None => Raise (ValueError "y contains previously unseen labels")
    end.

(** [model.predict] on one row: the class index of the booster, decoded
    by the label encoder. *)
Definition model_predict_row (model : FittedModel) (row : list cell) : result cell :=
  inverse_transform (classes_ model) (predict_row (booster model) row).

(** Two cells that are equal or both missing, whatever the marker. *)
Definition same_up_to_missing (c1 c2 : cell) : Prop :=
  c1 = c2 ∨ (isna c1 = true ∧ isna c2 = true).

(** Two rows under the columns [cols] that [predict] cannot tell apart:
    the categorical cells agree up to the missing marker and the amounts
    are the same. *)
Definition same_record (cols : list string) (r1 r2 : list cell) : Prop :=
  (∀ c, c ∈ ["ProductCD"; "P_emaildomain"; "R_emaildomain"; "card4"; "M1"; "M2"; "M3"] →
        same_up_to_missing (cell_at cols r1 c) (cell_at cols r2 c))
  ∧ cell_at cols r1 "TransactionAmt" = cell_at cols r2 "TransactionAmt".

End TrainingData.

Arguments attr A : clear implicits.
Arguments Attr {A} a.
Arguments AttributeError {A} name.
Arguments FittedModel num : clear implicits.

(** ** Further concrete objects *)

(** The frame of the example request with [np.nan] where the request
    has [null]. *)
Definition example_frame_nan : DataFrame Z :=
  {| columns := ["isFraud"; "TransactionAmt"; "ProductCD"; "card4"; "P_emaildomain";
                 "R_emaildomain"; "M1"; "M2"; "M3"];
     data := [[Num 0%Z; Num 495%Z; Str "W"; Str "visa"; Str "live.com"; NaN;
               Str "T"; Str "T"; Str "T"]] |}.

(** A raw training frame with two rows of class 0 and one of class 1. *)
Definition raw_train : DataFrame Z :=
  {| columns := ["isFraud"; "TransactionAmt"; "ProductCD"; "card4"; "P_emaildomain";
                 "R_emaildomain"; "M1"; "M2"; "M3"];
     data := [ [Num 0%Z; Num 59%Z; Str "W"; Str "visa"; Str "gmail.com"; NaN;
                Str "T"; Str "T"; Str "T"];
               [Num 1%Z; Num 20%Z; Str "C"; Str "mastercard"; Str "gmail.com";
                Str "gmail.com"; NaN; NaN; NaN];
               [Num 0%Z; Num 495%Z; Str "W"; Str "visa"; Str "live.com"; NaN;
                Str "T"; Str "T"; Str "T"] ] |}.

(** A fitted model with the classes of [small_train]. *)
Definition small_model : FittedModel Z :=
  {| booster := large_amount; classes_ := [Num 0%Z; Num 1%Z] |}.

(** A raw frame with more rows of class 1 than of class 0. *)
Definition mostly_fraud : DataFrame Z :=
  {| columns := ["isFraud"; "TransactionAmt"];
     data := [[Num 1%Z; Num 20%Z]; [Num 0%Z; Num 30%Z]; [Num 1%Z; Num 40%Z]] |}.

(** * Properties *)

Section Pipeline.
Context {num : Type} `{PyNum num}.

Abbreviation cell := (cell num).

(** ** Fallible computations *)

Lemma traverse_pure {A B} (f : A → result B) (g : A → B) (l : list A) :
  (∀ x, x ∈ l → f x = Ok (g x)) → traverse f l = Ok (g <$> l).
Proof.
  induction l as [|x l IH]; intros Hf; [done|].
  cbn. rewrite Hf by left. cbn.
  rewrite IH; [done|]. intros y Hy. apply Hf. by right.
Qed.

Lemma traverse_length {A B} (f : A → result B) (l : list A) (k : list B) :
  traverse f l = Ok k → length k = length l.
Proof.
  revert k. induction l as [|x l IH]; intros k; cbn.
  - by intros [= <-].
  - destruct (f x) as [y|e]; cbn; [|done].
    destruct (traverse f l) as [ys|e]; cbn; [|done].
    intros [= <-]. cbn. f_equal. by apply IH.
Qed.

(** ** Column lookup *)

Lemma get_loc_Some (c : string) (cols : list string) (i : nat) :
  get_loc c cols = Some i → cols !! i = Some c.
Proof.
  revert i. induction cols as [|c' cols IH]; intros i; cbn; [done|].
  destruct (String.eqb_spec c c') as [->|Hne].
  - by intros [= <-].
  - destruct (get_loc c cols) as [j|]; cbn; [|done].
    intros [= <-]. by apply IH.
Qed.

Lemma get_loc_None (c : string) (cols : list string) :
  get_loc c cols = None ↔ c ∉ cols.
Proof.
  induction cols as [|c' cols IH]; cbn.
  - split; [intros _; apply not_elem_of_nil|done].
  - destruct (String.eqb_spec c c') as [->|Hne].
    + split; [done|]. intros Hn. exfalso. apply Hn. left.
    + rewrite not_elem_of_cons. destruct (get_loc c cols); cbn.
      * split; [done|]. intros [_ Hn]. by apply IH in Hn.
      * split; [|done]. intros _. split; [done|]. by apply IH.
Qed.

Lemma has_column_true (cols : list string) (c : string) :
  has_column cols c = true ↔ c ∈ cols.
Proof.
  unfold has_column. rewrite bool_decide_eq_true.
  destruct (get_loc c cols) as [i|] eqn:E.
  - split; [|by eauto]. intros _. eapply list_elem_of_lookup_2, get_loc_Some, E.
  - apply get_loc_None in E. split; [|done]. by intros [? [=]].
Qed.

Lemma has_column_false (cols : list string) (c : string) :
  has_column cols c = false ↔ c ∉ cols.
Proof.
  rewrite <- has_column_true. destruct (has_column cols c); naive_solver.
Qed.

Lemma getitem_present (df : DataFrame num) (names : list string) :
  forallb (has_column (columns df)) names = true →
  getitem df names =
    Ok {| columns := names;
          data := (λ row : list cell, cell_at (columns df) row <$> names) <$> data df |}.
Proof.
  intros Hall. unfold getitem.
  replace (filter (λ c, has_column (columns df) c = false) names) with (@nil string); [done|].
  symmetry. induction names as [|c names IH]; [done|].
  cbn in Hall. apply andb_true_iff in Hall as [Hc Hall].
  rewrite filter_cons. destruct (decide _) as [Hd|_]; [congruence|]. by apply IH.
Qed.

Lemma getitem_missing (df : DataFrame num) (names : list string) (c : string) :
  c ∈ names → has_column (columns df) c = false →
  ∃ missing,
    getitem df names = Raise (KeyError missing)
    ∧ c ∈ missing
    ∧ ∀ m, m ∈ missing ↔ m ∈ names ∧ m ∉ columns df.
Proof.
  intros Hin Hc. unfold getitem.
  set (missing := filter _ names).
  assert (Hchar : ∀ m, m ∈ missing ↔ m ∈ names ∧ m ∉ columns df).
  { intros m. unfold missing. rewrite list_elem_of_filter, has_column_false. tauto. }
  assert (Hm : c ∈ missing) by (apply Hchar; split; [done|by apply has_column_false]).
  exists missing. destruct missing as [|m ms] eqn:E.
  - by apply elem_of_nil in Hm.
  - done.
Qed.

(** ** The encoder *)

Lemma zeros_length (n : nat) : length (zeros n : list cell) = n.
Proof. apply length_replicate. Qed.

Lemma one_hot_length (cats : list cell) (c : cell) :
  length (one_hot cats c) = length cats.
Proof.
  unfold one_hot. destruct (cat_index c cats); rewrite ?length_insert; apply zeros_length.
Qed.

Lemma encode_cell_ignore (cats : list cell) (c : cell) :
  encode_cell UnknownIgnore cats c = Ok (one_hot cats c).
Proof. unfold encode_cell, one_hot. by destruct (cat_index c cats). Qed.

Lemma encode_row_ignore (cats : list (list cell)) (row : list cell) :
  encode_row UnknownIgnore cats row = Ok (one_hot_row cats row).
Proof.
  revert row. induction cats as [|cs cats IH]; intros [|c row]; try done.
  cbn. rewrite encode_cell_ignore. cbn. by rewrite IH.
Qed.

Lemma one_hot_row_length (cats : list (list cell)) (row : list cell) :
  (length cats ≤ length row)%nat → length (one_hot_row cats row) = encoded_width cats.
Proof.
  unfold one_hot_row, encoded_width.
  revert row. induction cats as [|cs cats IH]; intros [|c row] Hlen; cbn in *; try lia.
  rewrite length_app, one_hot_length. f_equal. apply IH. lia.
Qed.

Lemma get_feature_names_out_length (enc : OneHotEncoder num) :
  (length (categories_ enc) ≤ length (feature_names_in_ enc))%nat →
  length (get_feature_names_out enc) = encoded_width (categories_ enc).
Proof.
  unfold get_feature_names_out, encoded_width.
  generalize (feature_names_in_ enc) as names.
  induction (categories_ enc) as [|cs cats IH]; intros [|f names] Hlen; cbn in *; try lia.
  rewrite length_app, length_fmap. f_equal. apply IH. lia.
Qed.

(** Every output column of the encoder has an underscore in its name;
    ["TransactionAmt"] has none, so the two never collide. *)
Lemma has_underscore_app (f t : string) :
  has_underscore (f +:+ "_" +:+ t) = true.
Proof.
  change (has_underscore (f +:+ String "_"%char t) = true).
  induction f as [|a f IH]; [done|].
  change (Ascii.eqb a "_" || has_underscore (f +:+ String "_"%char t) = true).
  rewrite IH. apply orb_true_r.
Qed.

Lemma feature_names_underscore (enc : OneHotEncoder num) (name : string) :
  name ∈ get_feature_names_out enc → has_underscore name = true.
Proof.
  unfold get_feature_names_out.
  generalize (feature_names_in_ enc) as names.
  induction (categories_ enc) as [|cs cats IH]; intros [|f names]; cbn;
    try (by intros ?%elem_of_nil).
  rewrite elem_of_app. intros [Hin|Hin]; [|by eapply IH].
  apply list_elem_of_fmap in Hin as (t & -> & _). apply has_underscore_app.
Qed.

Lemma TransactionAmt_is_new (enc : OneHotEncoder num) :
  get_loc "TransactionAmt" (get_feature_names_out enc) = None.
Proof.
  apply get_loc_None. intros Hin%feature_names_underscore. discriminate Hin.
Qed.

Lemma one_hot_binary (cats : list cell) (c : cell) :
  Forall (λ x, x = Num num_zero ∨ x = Num num_one) (one_hot cats c).
Proof.
  assert (Hz : ∀ n, Forall (λ x : cell, x = Num num_zero ∨ x = Num num_one) (zeros n)).
  { intros n. apply Forall_replicate. by left. }
  unfold one_hot. destruct (cat_index c cats); [|apply Hz].
  apply Forall_insert; [apply Hz|by right].
Qed.

Lemma one_hot_row_binary (cats : list (list cell)) (row : list cell) :
  Forall (λ x, x = Num num_zero ∨ x = Num num_one) (one_hot_row cats row).
Proof.
  unfold one_hot_row. revert row.
  induction cats as [|cs cats IH]; intros [|c row]; cbn; try by constructor.
  apply Forall_app. split; [apply one_hot_binary|apply IH].
Qed.

Lemma transform_ignore (enc : OneHotEncoder num) (X : DataFrame num) :
  handle_unknown enc = UnknownIgnore →
  (nrows X =? 0)%nat = false →
  length (columns X) = length (categories_ enc) →
  transform enc X = Ok (one_hot_row (categories_ enc) <$> data X).
Proof.
  intros Hpol Hn Hlen. unfold transform.
  rewrite Hlen, Nat.eqb_refl, Hn, Hpol. cbn [negb].
  apply traverse_pure. intros; apply encode_row_ignore.
Qed.

Lemma fillna_canonical (X : DataFrame num) :
  Forall (Forall (λ c, isna c = true → c = NA)) (data (fillna NA X)).
Proof.
  unfold fillna. cbn [data]. apply Forall_fmap, Forall_true. intros row.
  apply Forall_fmap, Forall_true. intros c. cbn. by destruct c.
Qed.

Lemma one_hot_row_block (cats : list (list cell)) (row : list cell) (j : nat)
    (cs : list cell) (c : cell) :
  cats !! j = Some cs → row !! j = Some c →
  one_hot_row cats row =
    one_hot_row (take j cats) (take j row) ++ one_hot cs c
      ++ one_hot_row (drop (S j) cats) (drop (S j) row).
Proof.
  unfold one_hot_row. revert cats row.
  induction j as [|j IH]; intros [|cs' cats] [|c' row]; cbn; try done.
  - by intros [= ->] [= ->].
  - intros Hc Hr. rewrite <- app_assoc. f_equal. by apply IH.
Qed.

Lemma one_hot_unknown (cats : list cell) (c : cell) :
  cat_index c cats = None → one_hot cats c = zeros (length cats).
Proof. unfold one_hot. by intros ->. Qed.

(** ** What [predict] computes on a valid frame *)

Lemma valid_frame_columns (df : DataFrame num) :
  valid_frame df = true →
  forallb (has_column (columns df))
    ["ProductCD"; "P_emaildomain"; "R_emaildomain"; "card4"; "M1"; "M2"; "M3"] = true
  ∧ forallb (has_column (columns df)) ["TransactionAmt"] = true
  ∧ (nrows df =? 0)%nat = false
  ∧ numeric_amounts df = true.
Proof.
  unfold valid_frame, schema_fields. cbn [forallb].
  rewrite !andb_true_iff, negb_true_iff.
  intros [[[[(?&?&?&?&?&?&?&?&_) ?] _] _] ?].
  repeat split; try done; cbn [forallb]; rewrite ?andb_true_iff; repeat split; done.
Qed.

Lemma binary_numeric (l : list cell) :
  Forall (λ x, x = Num num_zero ∨ x = Num num_one) l → forallb is_numeric l = true.
Proof.
  induction 1 as [|x l [->| ->] _ IH]; [done|by cbn..].
Qed.

Lemma assemble_row_numeric (enc : OneHotEncoder num) (cols : list string) (row : list cell) :
  is_numeric (cell_at cols row "TransactionAmt") = true →
  forallb is_numeric (assemble_row enc cols row) = true.
Proof.
  intros Hamt. unfold assemble_row.
  rewrite forallb_app, (binary_numeric _ (one_hot_row_binary _ _)). cbn. by rewrite Hamt.
Qed.

(** The runner takes the assembled matrix of a frame with numeric
    amounts. *)
Lemma run_assembled (enc : OneHotEncoder num) (clf : XGBClassifier num)
    (df : DataFrame num) (names : list string) :
  numeric_amounts df = true →
  run clf {| columns := names; data := assemble_row enc (columns df) <$> data df |}
  = Ok ((λ row, predict_row clf (assemble_row enc (columns df) row)) <$> data df).
Proof.
  intros Hnum. unfold run. cbn [data].
  rewrite (proj2 (forallb_forall _ _)); [by rewrite <- list_fmap_compose|].
  intros r (row & <- & Hrow)%in_map_iff. apply assemble_row_numeric.
  unfold numeric_amounts in Hnum. by apply (proj1 (forallb_forall _ _) Hnum).
Qed.

(** The last three lines shared by the training cell and [predict]:
    build the frame of encoded columns, then add [TransactionAmt]. *)
Lemma append_amount (enc : OneHotEncoder num) (df : DataFrame num)
    (g : list cell → list cell) :
  (length (categories_ enc) ≤ length (feature_names_in_ enc))%nat →
  (∀ row, length (categories_ enc) ≤ length (g row))%nat →
  forallb (has_column (columns df)) ["TransactionAmt"] = true →
  (X ← DataFrame_init ((λ row, one_hot_row (categories_ enc) (g row)) <$> data df)
         (get_feature_names_out enc);
   amt ← getitem df ["TransactionAmt"];
   setitem X "TransactionAmt" (to_numpy amt)) =
    Ok {| columns := get_feature_names_out enc ++ ["TransactionAmt"];
          data := (λ row, one_hot_row (categories_ enc) (g row)
                            ++ [cell_at (columns df) row "TransactionAmt"]) <$> data df |}.
Proof.
  intros Hnames Hg Ha. unfold DataFrame_init.
  rewrite (proj2 (forallb_forall _ _)); cycle 1.
  { intros row (r & <- & _)%in_map_iff. apply Nat.eqb_eq.
    by rewrite one_hot_row_length, get_feature_names_out_length. }
  cbn [mbind result_bind].
  rewrite (getitem_present _ _ Ha). cbn [mbind result_bind].
  unfold setitem, to_numpy, nrows. cbn [columns data].
  rewrite !length_fmap, Nat.eqb_refl. cbn [negb].
  rewrite (proj2 (forallb_forall _ _)); cycle 1.
  { by intros row (r & <- & _)%in_map_iff. }
  cbn [negb]. rewrite TransactionAmt_is_new. do 2 f_equal.
  clear. induction (data df) as [|row rows IH]; [done|].
  cbn [fmap list_fmap concat zip_with app]. cbn [fmap list_fmap] in IH.
  rewrite IH. done.
Qed.

Lemma predict_input_valid (enc : OneHotEncoder num) (df : DataFrame num) :
  handle_unknown enc = UnknownIgnore →
  fitted 7 enc →
  valid_frame df = true →
  predict_input enc df =
    Ok {| columns := get_feature_names_out enc ++ ["TransactionAmt"];
          data := assemble_row enc (columns df) <$> data df |}.
Proof.
  intros Hpol [Hnames Hcats] (Hc & Ha & Hn & _)%valid_frame_columns.
  unfold predict_input.
  rewrite (getitem_present _ _ Hc). cbn [mbind result_bind].
  rewrite transform_ignore; [|done| |by rewrite Hcats].
  2: { unfold nrows, fillna in *. cbn [data]. by rewrite !length_fmap. }
  cbn [mbind result_bind]. unfold fillna. cbn [data].
  rewrite <- !list_fmap_compose.
  pose proof (append_amount enc df
           (λ row, (λ c, let v := cell_at (columns df) row c in if isna v then NA else v) <$>
                 ["ProductCD"; "P_emaildomain"; "R_emaildomain"; "card4"; "M1"; "M2"; "M3"]))
    as Happ.
  unfold compose, assemble_row. apply Happ; [lia| |done].
  intros row. rewrite !length_fmap, Hcats. done.
Qed.

Lemma predict_runs_on_input (enc : OneHotEncoder num) (clf : XGBClassifier num)
    (df : DataFrame num) :
  predict enc clf df = X ← predict_input enc df; run clf X.
Proof.
  unfold predict, predict_input.
  destruct (getitem df [_; _; _; _; _; _; _]) as [X|e]; cbn [mbind result_bind]; [|done].
  destruct (transform enc _) as [arr|e]; cbn [mbind result_bind]; [|done].
  destruct (DataFrame_init arr _) as [X'|e]; cbn [mbind result_bind]; [|done].
  destruct (getitem df [_]) as [amt|e]; cbn [mbind result_bind]; done.
Qed.

Lemma predict_valid (enc : OneHotEncoder num) (clf : XGBClassifier num) (df : DataFrame num) :
  handle_unknown enc = UnknownIgnore →
  fitted 7 enc →
  valid_frame df = true →
  predict enc clf df =
    Ok ((λ row, predict_row clf (assemble_row enc (columns df) row)) <$> data df).
Proof.
  intros Hpol Hfit Hvalid.
  rewrite predict_runs_on_input, (predict_input_valid _ _ Hpol Hfit Hvalid).
  cbn [mbind result_bind]. apply run_assembled.
  by apply valid_frame_columns in Hvalid as (_ & _ & _ & ?).
Qed.

Lemma valid_frame_row (df : DataFrame num) (row : list cell) :
  valid_frame df = true →
  row ∈ data df →
  valid_frame {| columns := columns df; data := [row] |} = true.
Proof.
  unfold valid_frame, nrows, string_categories, numeric_amounts.
  cbn [columns data length Nat.eqb negb].
  rewrite !andb_true_iff. intros [[[[-> _] ->] Hs] Hn] Hrow%list_elem_of_In.
  rewrite forallb_forall in Hs, Hn.
  repeat split; try done; apply forallb_forall; intros x [<-|[]]; auto.
Qed.

(** C1, as the code has it. For every valid frame, which has at least
    one row, [predict] returns one label per record, in input order:
    the i-th label is the class the classifier gives to the row
    assembled from the i-th record, 1 above the threshold and 0
    otherwise, and it is the label the service gives that record on its
    own. *)
Theorem predict_one_label_per_record (enc : OneHotEncoder num) (clf : XGBClassifier num)
    (df : DataFrame num) :
  handle_unknown enc = UnknownIgnore →
  fitted 7 enc →
  valid_frame df = true →
  ∃ labels,
    predict enc clf df = Ok labels
    ∧ length labels = nrows df
    ∧ ∀ i row, data df !! i = Some row →
        labels !! i
          = Some (if proba_above_half clf (assemble_row enc (columns df) row)
                  then 1%Z else 0%Z)
        ∧ predict enc clf {| columns := columns df; data := [row] |}
          = Ok [if proba_above_half clf (assemble_row enc (columns df) row)
                then 1%Z else 0%Z].
Proof.
  intros Hpol Hfit Hvalid. eexists. split; [by apply predict_valid|].
  split; [by rewrite length_fmap|].
  intros i row Hrow. split.
  - rewrite list_lookup_fmap, Hrow. done.
  - rewrite predict_valid; [done..|].
    apply valid_frame_row; [done|]. by eapply list_elem_of_lookup_2.
Qed.


Lemma predict_row_binary (clf : XGBClassifier num) (row : list cell) :
  predict_row clf row = 0%Z ∨ predict_row clf row = 1%Z.
Proof. unfold predict_row. destruct (proba_above_half clf row); auto. Qed.

(** C2. A record with a categorical value the encoder never saw does not
    make [predict] fail: on a valid frame the call still returns one
    label per record, the label of that record is the class the
    classifier gives to its assembled row, and in that row the block of
    the field is the all-zeros block of the ignore policy. *)
Theorem predict_unseen_category (enc : OneHotEncoder num) (clf : XGBClassifier num)
    (df : DataFrame num) (i j : nat) (row : list cell) (field : string)
    (cats : list cell) (v : cell) :
  handle_unknown enc = UnknownIgnore →
  fitted 7 enc →
  valid_frame df = true →
  data df !! i = Some row →
  ["ProductCD"; "P_emaildomain"; "R_emaildomain"; "card4"; "M1"; "M2"; "M3"] !! j = Some field →
  cell_at (columns df) row field = v →
  isna v = false →
  categories_ enc !! j = Some cats →
  cat_index v cats = None →
  ∃ labels before after,
    predict enc clf df = Ok labels
    ∧ length labels = nrows df
    ∧ labels !! i
      = Some (if proba_above_half clf (assemble_row enc (columns df) row)
              then 1%Z else 0%Z)
    ∧ encode_cell (handle_unknown enc) cats v = Ok (zeros (length cats))
    ∧ assemble_row enc (columns df) row = before ++ zeros (length cats) ++ after
    ∧ length before = encoded_width (take j (categories_ enc)).
Proof.
  intros Hpol Hfit Hvalid Hrow Hfield Hv Hna Hcats Hunseen.
  set (filled := (λ c, let v := cell_at (columns df) row c in if isna v then NA else v) <$>
         ["ProductCD"; "P_emaildomain"; "R_emaildomain"; "card4"; "M1"; "M2"; "M3"]).
  exists ((λ row, predict_row clf (assemble_row enc (columns df) row)) <$> data df),
    (one_hot_row (take j (categories_ enc)) (take j filled)),
    (one_hot_row (drop (S j) (categories_ enc)) (drop (S j) filled)
       ++ [cell_at (columns df) row "TransactionAmt"]).
  split; [by apply predict_valid|].
  split; [by rewrite length_fmap|].
  split; [by rewrite list_lookup_fmap, Hrow|].
  split; [by rewrite Hpol, encode_cell_ignore, one_hot_unknown|].
  assert (Hj : filled !! j = Some v).
  { unfold filled. rewrite list_lookup_fmap, Hfield. cbn. by rewrite Hv, Hna. }
  split.
  - unfold assemble_row. fold filled.
    rewrite (one_hot_row_block _ _ j cats v Hcats Hj), (one_hot_unknown _ _ Hunseen).
    by rewrite <- !app_assoc.
  - apply one_hot_row_length. rewrite !length_take.
    apply lookup_lt_Some in Hj, Hcats. lia.
Qed.

(** ** Frames read from records *)

Lemma existsb_eqb_elem_of (k : string) (seen : list string) :
  existsb (String.eqb k) seen = true ↔ k ∈ seen.
Proof.
  rewrite existsb_exists. split.
  - intros (x & Hin & ->%String.eqb_eq). by apply list_elem_of_In.
  - intros Hin. exists k. split; [by apply list_elem_of_In|apply String.eqb_refl].
Qed.

Lemma ordered_union_elem_of (k : string) (seen ks : list string) :
  k ∈ ordered_union seen ks ↔ k ∈ ks ∧ k ∉ seen.
Proof.
  revert seen. induction ks as [|k' ks IH]; intros seen; cbn.
  - split; [by intros ?%elem_of_nil|by intros [?%elem_of_nil _]].
  - destruct (existsb (String.eqb k') seen) eqn:E.
    + apply existsb_eqb_elem_of in E. rewrite IH, elem_of_cons.
      split; [tauto|]. intros [[->|?] ?]; tauto.
    + assert (k' ∉ seen) by (rewrite <- existsb_eqb_elem_of; congruence).
      rewrite !elem_of_cons, IH, not_elem_of_cons.
      destruct (decide (k = k')) as [->|]; tauto.
Qed.

Lemma dict_get_None (k : string) (r : list (string * cell)) :
  dict_get k r = None ↔ k ∉ r.*1.
Proof.
  induction r as [|[k' v] r IH]; cbn.
  - split; [intros _; apply not_elem_of_nil|done].
  - rewrite not_elem_of_cons. destruct (dict_get k r) as [w|].
    + split; [done|]. intros [_ Hn]. by apply IH in Hn.
    + destruct (String.eqb_spec k k') as [->|Hne]; [|tauto].
      split; [done|]. intros [Hn _]. done.
Qed.

Lemma record_keys_elem_of (c : string) (batch : list (list (string * cell))) :
  c ∈ record_keys batch ↔ ∃ r, r ∈ batch ∧ is_Some (dict_get c r).
Proof.
  unfold record_keys. rewrite ordered_union_elem_of, list_elem_of_bind.
  split.
  - intros [(r & Hc & Hr) _]. exists r. split; [done|].
    destruct (dict_get c r) eqn:E; [by eauto|]. by apply dict_get_None in E.
  - intros (r & Hr & Hsome). split; [|apply not_elem_of_nil].
    exists r. split; [|done].
    destruct (decide (c ∈ r.*1)) as [|Hn]; [done|].
    apply dict_get_None in Hn. rewrite Hn in Hsome. by destruct Hsome.
Qed.

(** The cell the adapter puts under column [c] for record [r]. *)
Lemma cell_at_from_records (batch : list (list (string * cell)))
    (r : list (string * cell)) (c : string) :
  r ∈ batch →
  cell_at (record_keys batch) ((λ c, default NaN (dict_get c r)) <$> record_keys batch) c
  = default NaN (dict_get c r).
Proof.
  intros Hr. unfold cell_at.
  destruct (get_loc c (record_keys batch)) as [i|] eqn:E; cbn.
  - apply get_loc_Some in E. by rewrite list_lookup_fmap, E.
  - apply get_loc_None in E. destruct (dict_get c r) eqn:Eg; [|done].
    exfalso. apply E, record_keys_elem_of. exists r. by rewrite Eg.
Qed.

Lemma getitem_from_records (batch : list (list (string * cell))) (names : list string) :
  getitem (from_records batch) names =
    match filter (λ c, has_column (record_keys batch) c = false) names with
    | [] => Ok {| columns := names;
                  data := (λ r, (λ c, default NaN (dict_get c r)) <$> names) <$> batch |}
    | missing => Raise (KeyError missing)
    end.
Proof.
  unfold getitem, from_records. cbn [columns data].
  destruct (filter _ names); [|done]. do 2 f_equal.
  rewrite <- list_fmap_compose. apply list_fmap_ext. intros i r Hr%list_elem_of_lookup_2.
  cbn. apply list_fmap_ext. intros _ c _. by apply cell_at_from_records.
Qed.

Lemma has_column_agree (names : list string) (b1 b2 : list (list (string * cell)))
    (c : string) :
  Forall2 (agree_on names) b1 b2 → c ∈ names →
  has_column (record_keys b1) c = has_column (record_keys b2) c.
Proof.
  intros Hagree Hc.
  assert (Hiff : c ∈ record_keys b1 ↔ c ∈ record_keys b2).
  { rewrite !record_keys_elem_of. split.
    - intros (r & Hr & Hsome). apply list_elem_of_lookup in Hr as [i Hi].
      destruct (Forall2_lookup_l _ _ _ _ _ Hagree Hi) as (r' & Hi' & Hrr).
      exists r'. split; [by eapply list_elem_of_lookup_2|]. by rewrite <- (Hrr c Hc).
    - intros (r & Hr & Hsome). apply list_elem_of_lookup in Hr as [i Hi].
      destruct (Forall2_lookup_r _ _ _ _ _ Hagree Hi) as (r' & Hi' & Hrr).
      exists r'. split; [by eapply list_elem_of_lookup_2|]. by rewrite (Hrr c Hc). }
  rewrite <- !has_column_true in Hiff. by apply eq_true_iff_eq.
Qed.

Lemma getitem_agree (fields names : list string) (b1 b2 : list (list (string * cell))) :
  Forall2 (agree_on fields) b1 b2 → names ⊆ fields →
  getitem (from_records b1) names = getitem (from_records b2) names.
Proof.
  intros Hagree Hsub. rewrite !getitem_from_records.
  assert (Hf : filter (λ c, has_column (record_keys b1) c = false) names
             = filter (λ c, has_column (record_keys b2) c = false) names).
  { clear -Hagree Hsub. induction names as [|c names IH]; [done|].
    assert (Hc : has_column (record_keys b1) c = has_column (record_keys b2) c).
    { apply (has_column_agree fields); [done|]. apply Hsub. left. }
    assert (IH' : filter (λ c, has_column (record_keys b1) c = false) names
                = filter (λ c, has_column (record_keys b2) c = false) names).
    { apply IH. intros x Hx. apply Hsub. by right. }
    rewrite !filter_cons, IH'.
    destruct (decide (has_column (record_keys b1) c = false)),
      (decide (has_column (record_keys b2) c = false)); congruence. }
  rewrite Hf. clear Hf.
  match goal with |- context [match ?f with [] => _ | _ :: _ => _ end] => destruct f end;
    [|done].
  do 2 f_equal. induction Hagree as [|r1 r2 b1 b2 Hr _ IH]; [done|].
  cbn [fmap list_fmap]. cbn [fmap list_fmap] in IH. rewrite IH. f_equal.
  apply list_fmap_ext. intros _ c Hc%list_elem_of_lookup_2. by rewrite (Hr c (Hsub _ Hc)).
Qed.

Lemma categorical_in_schema :
  ["ProductCD"; "P_emaildomain"; "R_emaildomain"; "card4"; "M1"; "M2"; "M3"] ⊆ schema_fields.
Proof. apply (bool_decide_unpack _). by vm_compute. Qed.

Lemma amount_in_schema : ["TransactionAmt"] ⊆ schema_fields.
Proof. apply (bool_decide_unpack _). by vm_compute. Qed.

(** C9. Fields outside the schema are ignored: two batches of the same
    length whose records agree on the eight schema fields get the same
    answer from [predict], whatever else the records carry. *)
Theorem predict_ignores_extra_fields (enc : OneHotEncoder num) (clf : XGBClassifier num)
    (b1 b2 : list (list (string * cell))) :
  Forall2 (agree_on schema_fields) b1 b2 →
  predict enc clf (from_records b1) = predict enc clf (from_records b2).
Proof.
  intros Hagree. unfold predict.
  rewrite (getitem_agree schema_fields ["TransactionAmt"] b1 b2 Hagree),
    (getitem_agree schema_fields
       ["ProductCD"; "P_emaildomain"; "R_emaildomain"; "card4"; "M1"; "M2"; "M3"]
       b1 b2 Hagree).
  - done.
  - apply categorical_in_schema.
  - apply amount_in_schema.
Qed.

(** ** The service *)

Lemma predict_labels_binary (enc : OneHotEncoder num) (clf : XGBClassifier num)
    (df : DataFrame num) (labels : list Z) :
  predict enc clf df = Ok labels → Forall (λ l, l = 0%Z ∨ l = 1%Z) labels.
Proof.
  rewrite predict_runs_on_input.
  destruct (predict_input enc df) as [X|e]; cbn [mbind result_bind]; [|done].
  unfold run. destruct (forallb _ _); [|done].
  intros [= <-]. apply Forall_fmap, Forall_true. intros row.
  apply predict_row_binary.
Qed.

Lemma handle_route (svc : Service num) (req : request num) :
  handle svc req =
    if String.eqb (req_path req) "/fraud-classifier" then
      match req_method req with
      | POST =>
          match predict (ohe_encoder svc) (fraud_classifier_runner svc)
                  (from_records (req_body req)) with
          | Ok labels => Labels labels
          | Raise e => Failed e
          end
      | GET => MethodNotAllowed
      end
    else NotFound.
Proof.
  unfold handle, apis. cbn [find_route].
  by destruct (String.eqb (req_path req) "/fraud-classifier").
Qed.

(** An answer with labels only comes from a POST on the route of
    [predict]. *)
Lemma handle_Labels_inv (svc : Service num) (req : request num) (labels : list Z) :
  handle svc req = Labels labels →
  req_method req = POST
  ∧ req_path req = "/fraud-classifier"
  ∧ predict (ohe_encoder svc) (fraud_classifier_runner svc) (from_records (req_body req))
    = Ok labels.
Proof.
  rewrite handle_route. intros Hresp.
  destruct (String.eqb_spec (req_path req) "/fraud-classifier") as [Hpath|_]; [|done].
  destruct (req_method req); [done|].
  destruct (predict _ _ _) as [labels'|e] eqn:Hpred; [|done].
  by injection Hresp as ->.
Qed.

Lemma encode_stage (enc : OneHotEncoder num) (df : DataFrame num) :
  handle_unknown enc = UnknownIgnore →
  fitted 7 enc →
  forallb (has_column (columns df))
    ["ProductCD"; "P_emaildomain"; "R_emaildomain"; "card4"; "M1"; "M2"; "M3"] = true →
  (nrows df =? 0)%nat = false →
  ∃ X0,
    (X ← getitem df ["ProductCD"; "P_emaildomain"; "R_emaildomain"; "card4"; "M1"; "M2"; "M3"];
     arr ← transform enc (fillna NA X);
     DataFrame_init arr (get_feature_names_out enc)) = Ok X0.
Proof.
  intros Hpol [Hnames Hcats] Hc Hn.
  rewrite (getitem_present _ _ Hc). cbn [mbind result_bind].
  rewrite transform_ignore; [|done| |by rewrite Hcats].
  2: { unfold nrows, fillna in *. cbn [data]. by rewrite !length_fmap. }
  cbn [mbind result_bind]. unfold DataFrame_init.
  rewrite (proj2 (forallb_forall _ _)); [by eauto|].
  intros row (r & <- & Hr)%in_map_iff. apply Nat.eqb_eq.
  unfold fillna in Hr. cbn [data] in Hr.
  apply in_map_iff in Hr as (r' & <- & Hr). apply in_map_iff in Hr as (r'' & <- & _).
  rewrite one_hot_row_length, get_feature_names_out_length; [done|lia|].
  rewrite !length_fmap, Hcats. done.
Qed.

Lemma predict_missing_amount (enc : OneHotEncoder num) (clf : XGBClassifier num)
    (df : DataFrame num) :
  handle_unknown enc = UnknownIgnore →
  fitted 7 enc →
  forallb (has_column (columns df))
    ["ProductCD"; "P_emaildomain"; "R_emaildomain"; "card4"; "M1"; "M2"; "M3"] = true →
  (nrows df =? 0)%nat = false →
  has_column (columns df) "TransactionAmt" = false →
  predict enc clf df = Raise (KeyError ["TransactionAmt"]).
Proof.
  intros Hpol Hfit Hc Hn Ha.
  destruct (encode_stage enc df Hpol Hfit Hc Hn) as [X0 Hstage].
  unfold predict. revert Hstage.
  destruct (getitem df [_; _; _; _; _; _; _]) as [X|e]; cbn [mbind result_bind]; [|done].
  destruct (transform enc _) as [arr|e]; cbn [mbind result_bind]; [|done].
  intros ->. cbn [mbind result_bind].
  unfold getitem. rewrite filter_cons, filter_nil.
  destruct (decide (has_column (columns df) "TransactionAmt" = false)); done.
Qed.

Lemma getitem_cases (df : DataFrame num) (names : list string) :
  (forallb (has_column (columns df)) names = true)
  ∨ (∃ missing,
       missing ≠ []
       ∧ (∀ m, m ∈ missing ↔ m ∈ names ∧ m ∉ columns df)
       ∧ getitem df names = Raise (KeyError missing)).
Proof.
  destruct (forallb (has_column (columns df)) names) eqn:E; [by left|right].
  assert (∃ c, c ∈ names ∧ has_column (columns df) c = false) as (c & Hin & Hc).
  { clear -E. induction names as [|c names IH]; [done|].
    cbn in E. apply andb_false_iff in E as [E|E].
    - exists c. split; [left|done].
    - destruct (IH E) as (c' & ? & ?). exists c'. split; [by right|done]. }
  destruct (getitem_missing df names c Hin Hc) as (missing & Hget & Hm & Hchar).
  exists missing. split; [|done]. intros ->. by apply elem_of_nil in Hm.
Qed.

Lemma from_records_nrows (batch : list (list (string * cell))) :
  nrows (from_records batch) = length batch.
Proof. unfold nrows, from_records. cbn [data]. apply length_fmap. Qed.

(** One label per record of the request body. *)
Corollary predict_batch_length (enc : OneHotEncoder num) (clf : XGBClassifier num)
    (batch : list (list (string * cell))) :
  handle_unknown enc = UnknownIgnore →
  fitted 7 enc →
  valid_frame (from_records batch) = true →
  ∃ labels,
    predict enc clf (from_records batch) = Ok labels ∧ length labels = length batch.
Proof.
  intros Hpol Hfit Hvalid. eexists. split; [by apply predict_valid|].
  by rewrite length_fmap, <- from_records_nrows.
Qed.

(** C3, as the code has it. When a schema field is a column of no
    record of the request, [predict] raises pandas' [KeyError] with
    missing schema columns (the categorical ones when one of them is
    missing, otherwise [TransactionAmt]); the handler passes the error
    to the caller, and the requests that follow are answered as
    before. *)
Theorem missing_column_raises_KeyError (svc : Service num) (req : request num)
    (c : string) (rest : list (request num)) :
  handle_unknown (ohe_encoder svc) = UnknownIgnore →
  fitted 7 (ohe_encoder svc) →
  req_method req = POST →
  req_path req = "/fraud-classifier" →
  c ∈ schema_fields →
  has_column (columns (from_records (req_body req))) c = false →
  ∃ missing,
    missing ≠ []
    ∧ (∀ m, m ∈ missing →
         m ∈ schema_fields ∧ m ∉ columns (from_records (req_body req)))
    ∧ predict (ohe_encoder svc) (fraud_classifier_runner svc)
        (from_records (req_body req)) = Raise (KeyError missing)
    ∧ handle svc req = Failed (KeyError missing)
    ∧ serve svc (req :: rest) = Failed (KeyError missing) :: serve svc rest.
Proof.
  intros Hpol Hfit Hmeth Hpath Hc Habsent.
  set (df := from_records (req_body req)) in *.
  assert (Hpred : ∃ missing, missing ≠ []
            ∧ (∀ m, m ∈ missing → m ∈ schema_fields ∧ m ∉ columns df)
            ∧ predict (ohe_encoder svc) (fraud_classifier_runner svc) df
              = Raise (KeyError missing)).
  { destruct (getitem_cases df
      ["ProductCD"; "P_emaildomain"; "R_emaildomain"; "card4"; "M1"; "M2"; "M3"])
      as [Hcats|(missing & Hne & Hchar & Hget)].
    - exists ["TransactionAmt"]. split; [done|].
      assert (c = "TransactionAmt") as ->.
      { unfold schema_fields in Hc. cbn [forallb] in Hcats.
        rewrite !andb_true_iff in Hcats. rewrite !elem_of_cons in Hc.
        destruct Hc as [->|[->|[->|[->|[->|[->|[->|[->|[]%elem_of_nil]]]]]]]];
          [exfalso; revert Hcats; rewrite Habsent; intuition discriminate..|done]. }
      split.
      + intros m ->%list_elem_of_singleton. split; [done|]. by apply has_column_false.
      + apply predict_missing_amount; try done.
        unfold df. rewrite from_records_nrows.
        destruct (req_body req) eqn:Eb; [|done]. exfalso. subst df.
        rewrite ?Eb in Hcats. by vm_compute in Hcats.
    - exists missing. split; [done|]. split.
      + intros m [Hm ?]%Hchar. split; [|done]. by apply categorical_in_schema.
      + unfold predict. by rewrite Hget. }
  destruct Hpred as (missing & Hne & Hchar & Hpred).
  exists missing. split; [done|]. split; [done|]. split; [done|].
  assert (Hh : handle svc req = Failed (KeyError missing)).
  { rewrite handle_route, Hpath, Hmeth. cbn. fold df. by rewrite Hpred. }
  split; [done|]. unfold serve. cbn [fmap list_fmap]. by rewrite Hh.
Qed.

(** ** The registry *)

Lemma save_model_ok (name : string) (model : XGBClassifier num)
    (labels metadata : gmap string string) (custom : gmap string (OneHotEncoder num))
    (sigs : gmap string ModelSignature) (s : Store num) :
  reachable s = true →
  name ≠ "" →
  (∀ k sig, sigs !! k = Some sig → supports s sig = true) →
  save_model name model labels metadata custom sigs s =
    (Ok (name, Version (length (versions_of name s))),
     {| reachable := reachable s; supports := supports s;
        entries := <[name := versions_of name s
                               ++ [mkArtifact model labels metadata custom sigs]]>
                     (entries s) |}).
Proof.
  intros Hr Hname Hsigs. unfold save_model. rewrite Hr. cbn [negb].
  destruct (String.eqb_spec name "") as [->|_]; [done|].
  rewrite (proj2 (forallb_forall _ _)); [done|].
  intros [k sig] Hin%list_elem_of_In%elem_of_map_to_list. by eapply Hsigs.
Qed.

Lemma versions_of_insert (name : string) (x : list (Artifact num)) (s : Store num) :
  versions_of name {| reachable := reachable s; supports := supports s;
                      entries := <[name := x]> (entries s) |} = x.
Proof. unfold versions_of. cbn [entries]. by rewrite lookup_insert_eq. Qed.

(** Whatever it returns, [save_model] leaves the capabilities of the
    store alone and only ever extends the versions of a name. *)
Lemma save_model_extends (name : string) (model : XGBClassifier num)
    (labels metadata : gmap string string) (custom : gmap string (OneHotEncoder num))
    (sigs : gmap string ModelSignature) (s : Store num) (name0 : string) :
  ∃ new,
    versions_of name0 (save_model name model labels metadata custom sigs s).2
    = versions_of name0 s ++ new.
Proof.
  unfold save_model.
  destruct (negb (reachable s)); [by exists []; rewrite app_nil_r|].
  destruct (String.eqb name ""); [by exists []; rewrite app_nil_r|].
  destruct (negb (forallb _ _)); [by exists []; rewrite app_nil_r|].
  cbn [snd]. unfold versions_of at 1. cbn [entries].
  destruct (decide (name = name0)) as [->|Hne].
  - rewrite lookup_insert_eq. cbn. by eexists.
  - rewrite lookup_insert_ne by done. exists []. by rewrite app_nil_r.
Qed.

Lemma save_model_keeps_versions (name : string) (model : XGBClassifier num)
    (labels metadata : gmap string string) (custom : gmap string (OneHotEncoder num))
    (sigs : gmap string ModelSignature) (s : Store num) (name0 : string) (n : nat)
    (art : Artifact num) :
  get name0 (Version n) s = Ok art →
  get name0 (Version n) (save_model name model labels metadata custom sigs s).2 = Ok art.
Proof.
  unfold get.
  destruct (save_model_extends name model labels metadata custom sigs s name0) as [new ->].
  destruct (versions_of name0 s !! n) as [a|] eqn:E; [|done].
  intros [= ->]. by rewrite (lookup_app_l_Some _ _ _ _ E).
Qed.

(** C4. A successful [save] followed by [load(name, "latest")] gives
    back an artifact with the very predictor and custom objects that
    were saved, so [predict] run with the loaded objects returns what it
    returns with the originals on every input. *)
Theorem save_then_load_latest (name : string) (model : XGBClassifier num)
    (labels metadata : gmap string string) (custom : gmap string (OneHotEncoder num))
    (sigs : gmap string ModelSignature) (s : Store num) :
  reachable s = true →
  name ≠ "" →
  (∀ k sig, sigs !! k = Some sig → supports s sig = true) →
  ∃ tag s' art,
    save_model name model labels metadata custom sigs s = (Ok (name, tag), s')
    ∧ get name Latest s' = Ok art
    ∧ get name tag s' = Ok art
    ∧ art_model art = model
    ∧ art_custom_objects art = custom
    ∧ ∀ key enc df,
        custom !! key = Some enc →
        ∃ enc', art_custom_objects art !! key = Some enc'
                ∧ predict enc' (art_model art) df = predict enc model df.
Proof.
  intros Hr Hname Hsigs.
  eexists _, _, (mkArtifact model labels metadata custom sigs).
  split; [by apply save_model_ok|].
  unfold get. rewrite versions_of_insert.
  split; [by rewrite last_snoc|].
  split; [by rewrite list_lookup_middle|].
  split; [done|]. split; [done|].
  intros key enc df Henc. exists enc. done.
Qed.

(** C5. Two saves under one name in a row give two different tags, both
    of which can still be loaded afterwards with what was saved under
    them; ["latest"] resolves to the second; and no save changes what an
    already written (name, tag) pair resolves to. *)
Theorem sequential_saves_keep_versions (name : string)
    (model1 model2 : XGBClassifier num)
    (labels1 metadata1 labels2 metadata2 : gmap string string)
    (custom1 custom2 : gmap string (OneHotEncoder num))
    (sigs1 sigs2 : gmap string ModelSignature) (s : Store num) :
  reachable s = true →
  name ≠ "" →
  (∀ k sig, sigs1 !! k = Some sig → supports s sig = true) →
  (∀ k sig, sigs2 !! k = Some sig → supports s sig = true) →
  ∃ tag1 tag2 s1 s2,
    save_model name model1 labels1 metadata1 custom1 sigs1 s = (Ok (name, tag1), s1)
    ∧ save_model name model2 labels2 metadata2 custom2 sigs2 s1 = (Ok (name, tag2), s2)
    ∧ tag1 ≠ tag2
    ∧ get name Latest s1 = Ok (mkArtifact model1 labels1 metadata1 custom1 sigs1)
    ∧ get name tag1 s2 = Ok (mkArtifact model1 labels1 metadata1 custom1 sigs1)
    ∧ get name tag2 s2 = Ok (mkArtifact model2 labels2 metadata2 custom2 sigs2)
    ∧ get name Latest s2 = Ok (mkArtifact model2 labels2 metadata2 custom2 sigs2)
    ∧ ∀ name0 n art,
        get name0 (Version n) s = Ok art →
        get name0 (Version n) s1 = Ok art ∧ get name0 (Version n) s2 = Ok art.
Proof.
  intros Hr Hname Hsigs1 Hsigs2.
  pose proof (save_model_ok name model1 labels1 metadata1 custom1 sigs1 s Hr Hname Hsigs1)
    as Hsave1.
  set (s1 := {| reachable := reachable s; supports := supports s;
                entries := <[name := versions_of name s
                               ++ [mkArtifact model1 labels1 metadata1 custom1 sigs1]]>
                             (entries s) |}) in *.
  pose proof (save_model_ok name model2 labels2 metadata2 custom2 sigs2 s1 Hr Hname Hsigs2)
    as Hsave2.
  assert (Hv1 : versions_of name s1
                = versions_of name s ++ [mkArtifact model1 labels1 metadata1 custom1 sigs1]).
  { unfold versions_of at 1, s1. cbn [entries]. by rewrite lookup_insert_eq. }
  rewrite Hv1 in Hsave2.
  eexists _, _, _, _. split; [exact Hsave1|]. split; [exact Hsave2|].
  split; [rewrite length_app; cbn; intros [=]; lia|].
  split; [unfold get; by rewrite Hv1, last_snoc|].
  assert (Hv2 : ∀ x, versions_of name
            {| reachable := reachable s1; supports := supports s1;
               entries := <[name := x]> (entries s1) |} = x).
  { intros x. unfold versions_of. cbn [entries]. by rewrite lookup_insert_eq. }
  split; [unfold get; rewrite Hv2, <- app_assoc; cbn [app]; by rewrite list_lookup_middle|].
  split; [unfold get; rewrite Hv2, length_app; cbn [length];
          by rewrite list_lookup_middle by (rewrite length_app; cbn; lia)|].
  split; [unfold get; by rewrite Hv2, last_snoc|].
  intros name0 n art Hget.
  pose proof (save_model_keeps_versions name model1 labels1 metadata1 custom1 sigs1
                s name0 n art Hget) as H1.
  rewrite Hsave1 in H1. cbn [snd] in H1. split; [done|].
  pose proof (save_model_keeps_versions name model2 labels2 metadata2 custom2 sigs2
                s1 name0 n art H1) as H2.
  rewrite (save_model_ok name model2 labels2 metadata2 custom2 sigs2 s1 Hr Hname Hsigs2),
    Hv1 in H2.
  exact H2.
Qed.

Lemma load_saved_service (model : XGBClassifier num) (enc : OneHotEncoder num)
    (s : Store num) :
  reachable s = true →
  supports s {| batchable := true; batch_dim := 0 |} = true →
  ∃ tag s',
    saved_model model enc s = (Ok ("fraud_classifier", tag), s')
    ∧ load_service s' = Ok {| ohe_encoder := enc; fraud_classifier_runner := model |}.
Proof.
  intros Hr Hsup. eexists _, _. unfold saved_model. split.
  - apply save_model_ok; [done|done|].
    intros k sig [_ <-]%lookup_singleton_Some. done.
  - unfold load_service, get. rewrite versions_of_insert, last_snoc.
    cbn [mbind result_bind art_custom_objects art_model].
    by rewrite lookup_singleton_eq.
Qed.

(** ** The training cell *)

Lemma fit_inv (policy : unknown_policy) (X : DataFrame num) (enc : OneHotEncoder num) :
  fit policy X = Ok enc →
  (nrows X =? 0)%nat = false
  ∧ handle_unknown enc = policy
  ∧ feature_names_in_ enc = columns X
  ∧ length (categories_ enc) = length (columns X).
Proof.
  unfold fit. destruct (nrows X =? 0)%nat; [done|].
  destruct (traverse _ _) as [cats|e] eqn:E; cbn [mbind result_bind]; [|done].
  intros [= <-]. cbn. apply traverse_length in E. by rewrite E, length_seq.
Qed.

Lemma valid_frame_intro (df : DataFrame num) :
  forallb (has_column (columns df))
    ["ProductCD"; "P_emaildomain"; "R_emaildomain"; "card4"; "M1"; "M2"; "M3"] = true →
  forallb (has_column (columns df)) ["TransactionAmt"] = true →
  (nrows df =? 0)%nat = false →
  is_unique (columns df) = true →
  string_categories df = true →
  numeric_amounts df = true →
  valid_frame df = true.
Proof.
  unfold valid_frame, schema_fields. cbn [forallb]. intros Hc Ha -> -> -> ->.
  repeat (apply andb_true_iff in Hc as [-> Hc]).
  apply andb_true_iff in Ha as [-> _]. done.
Qed.

Lemma training_features_inv (train : DataFrame num) (enc : OneHotEncoder num)
    (Xt : DataFrame num) :
  training_features train = Ok (enc, Xt) →
  handle_unknown enc = UnknownIgnore
  ∧ fitted 7 enc
  ∧ Xt = {| columns := get_feature_names_out enc ++ ["TransactionAmt"];
            data := training_row enc (columns train) <$> data train |}.
Proof.
  unfold training_features.
  destruct (getitem_cases train
    ["ProductCD"; "P_emaildomain"; "R_emaildomain"; "card4"; "M1"; "M2"; "M3"])
    as [Hc|(missing & _ & _ & ->)]; [|done].
  rewrite (getitem_present _ _ Hc). cbn [mbind result_bind].
  destruct (fit UnknownIgnore _) as [enc'|e] eqn:Hfit; cbn [mbind result_bind]; [|done].
  apply fit_inv in Hfit as (Hn & Hpol & Hnames & Hcats). cbn [columns] in Hnames, Hcats.
  unfold nrows in Hn. cbn [data] in Hn. rewrite length_fmap in Hn.
  rewrite transform_ignore; [|done|by unfold nrows; cbn [data]; rewrite length_fmap|done].
  cbn [mbind result_bind data]. rewrite <- list_fmap_compose.
  destruct (getitem_cases train ["TransactionAmt"]) as [Ha|(missing & _ & _ & Hget)].
  - assert (Happ := append_amount enc' train
      (λ row, cell_at (columns train) row <$>
         ["ProductCD"; "P_emaildomain"; "R_emaildomain"; "card4"; "M1"; "M2"; "M3"])).
    rewrite Hnames, Hcats in Happ. specialize (Happ (le_n _) (λ _, le_n _) Ha).
    unfold compose.
    destruct (DataFrame_init _ _) as [X0|e]; cbn [mbind result_bind] in *; [|done].
    destruct (getitem train ["TransactionAmt"]) as [amt|e];
      cbn [mbind result_bind] in *; [|done].
    rewrite Happ. cbn [mbind result_bind]. intros [= <- <-].
    split; [done|]. split; [unfold fitted; by rewrite Hnames, Hcats|]. done.
  - destruct (DataFrame_init _ _) as [X0|e]; cbn [mbind result_bind]; [|done].
    by rewrite Hget.
Qed.

Lemma assemble_row_no_missing (enc : OneHotEncoder num) (cols : list string)
    (row : list cell) :
  (∀ c, c ∈ ["ProductCD"; "P_emaildomain"; "R_emaildomain"; "card4"; "M1"; "M2"; "M3"] →
        isna (cell_at cols row c) = false) →
  assemble_row enc cols row = training_row enc cols row.
Proof.
  intros Hna. unfold assemble_row, training_row. do 2 f_equal.
  apply list_fmap_ext. intros _ c Hc%list_elem_of_lookup_2. cbn. by rewrite Hna.
Qed.

(** X11. Training and serving select the same seven categorical columns
    in the same order, encode them with the same fitted encoder, name
    the encoded columns by the encoder's feature names and put
    [TransactionAmt] last: on a valid frame the matrix given to the
    runner has the column layout of the training matrix, and on rows
    without missing categorical values both build the same row. *)
Theorem serving_layout_matches_training (train df : DataFrame num)
    (enc : OneHotEncoder num) (Xt : DataFrame num) :
  training_features train = Ok (enc, Xt) →
  valid_frame df = true →
  ∃ Xs,
    predict_input enc df = Ok Xs
    ∧ columns Xs = columns Xt
    ∧ columns Xt = get_feature_names_out enc ++ ["TransactionAmt"]
    ∧ data Xt = training_row enc (columns train) <$> data train
    ∧ data Xs = assemble_row enc (columns df) <$> data df
    ∧ ∀ row,
        (∀ c, c ∈ ["ProductCD"; "P_emaildomain"; "R_emaildomain"; "card4"; "M1"; "M2"; "M3"] →
              isna (cell_at (columns df) row c) = false) →
        assemble_row enc (columns df) row = training_row enc (columns df) row.
Proof.
  intros (Hpol & Hfit & ->)%training_features_inv Hvalid.
  eexists. split; [by apply predict_input_valid|]. cbn [columns data].
  repeat split. intros row. apply assemble_row_no_missing.
Qed.

End Pipeline.

(** * The walkthrough's request *)

Lemma example_frame :
  from_records example_body =
    {| columns := ["isFraud"; "TransactionAmt"; "ProductCD"; "card4"; "P_emaildomain";
                   "R_emaildomain"; "M1"; "M2"; "M3"];
       data := [[Num 0%Z; Num 495%Z; Str "W"; Str "visa"; Str "live.com"; PyNone;
                 Str "T"; Str "T"; Str "T"]] |}.
Proof. reflexivity. Qed.

(** C6, as the code has it. After the notebook's save and the service's
    load, the example request is answered with exactly one label: the
    label the saved classifier gives to the row made of the one-hot
    blocks of (W, live.com, pd.NA, visa, T, T, T) followed by 495.0.
    The answer is [1] exactly when the classifier puts that row above
    the threshold. *)
Theorem example_request_label (enc : OneHotEncoder Z) (model : XGBClassifier Z)
    (s : Store Z) :
  reachable s = true →
  supports s {| batchable := true; batch_dim := 0 |} = true →
  handle_unknown enc = UnknownIgnore →
  fitted 7 enc →
  ∃ tag s' svc,
    saved_model model enc s = (Ok ("fraud_classifier", tag), s')
    ∧ load_service s' = Ok svc
    ∧ handle svc example_request = Labels [predict_row model (example_features enc)]
    ∧ (handle svc example_request = Labels [1%Z]
       ↔ proba_above_half model (example_features enc) = true).
Proof.
  intros Hr Hsup Hpol Hfit.
  destruct (load_saved_service model enc s Hr Hsup) as (tag & s' & Hsave & Hload).
  exists tag, s', {| ohe_encoder := enc; fraud_classifier_runner := model |}.
  split; [done|]. split; [done|].
  assert (Hh : handle {| ohe_encoder := enc; fraud_classifier_runner := model |}
                 example_request
               = Labels [predict_row model (example_features enc)]).
  { rewrite handle_route. cbn [req_path req_method req_body example_request
      ohe_encoder fraud_classifier_runner].
    change (String.eqb "/fraud-classifier" "/fraud-classifier") with true. cbv iota.
    rewrite example_frame, predict_valid by done. reflexivity. }
  split; [done|]. rewrite Hh. unfold predict_row.
  destruct (proba_above_half model (example_features enc)); split; (done || by intros [=]).
Qed.

(** * Concrete runs *)

Lemma small_enc_fitted : fitted 7 small_enc.
Proof. split; reflexivity. Qed.

Lemma small_train_features :
  training_features small_train = Ok (small_enc, small_training_matrix).
Proof. reflexivity. Qed.

Example small_train_labels :
  predict small_enc large_amount small_train = Ok [1%Z; 0%Z].
Proof. reflexivity. Qed.

(** A field that only some records of a batch lack is not a missing
    column: the adapter fills it with [np.nan] and [predict] answers. *)
Example partly_missing_amount :
  predict small_enc large_amount (from_records (example_body ++ no_amount_body))
  = Ok [1%Z; 0%Z].
Proof. reflexivity. Qed.

(** C1, as the claim states it: the empty JSON array is a batch of
    records none of which lacks a field, yet [predict] does not answer
    it with the empty sequence of labels.  The frame read from it has
    no columns, and selecting the categorical columns raises
    [KeyError]. *)
Lemma empty_batch_raises_KeyError :
  predict small_enc large_amount (from_records [])
  = Raise (KeyError ["ProductCD"; "P_emaildomain"; "R_emaildomain"; "card4";
                     "M1"; "M2"; "M3"])
  ∧ predict small_enc large_amount (from_records []) ≠ Ok []
  ∧ handle small_service
      {| req_method := POST; req_path := "/fraud-classifier"; req_body := [] |}
    = Failed (KeyError ["ProductCD"; "P_emaildomain"; "R_emaildomain"; "card4";
                        "M1"; "M2"; "M3"]).
Proof. split; [reflexivity|]. split; [discriminate|reflexivity]. Qed.

(** An amount that is not a number stops the request in the runner. *)
Example text_amount_raises :
  predict small_enc large_amount
    (from_records
       [[("TransactionAmt", Str "abc"); ("ProductCD", Str "W"); ("card4", Str "visa");
         ("P_emaildomain", Str "live.com"); ("R_emaildomain", PyNone);
         ("M1", Str "T"); ("M2", Str "T"); ("M3", Str "T")]])
  = Raise (ValueError "DataFrame.dtypes for data must be int, float, bool or category").
Proof. reflexivity. Qed.

(** With [handle_unknown="error"] the same unseen value stops the
    request. *)
Example unseen_card_with_error_policy :
  predict {| handle_unknown := UnknownError;
             feature_names_in_ := feature_names_in_ small_enc;
             categories_ := categories_ small_enc |}
    large_amount (from_records unseen_card_body)
  = Raise (ValueError "Found unknown categories").
Proof. reflexivity. Qed.

Lemma predict_one_label_per_record_witness :
  handle_unknown small_enc = UnknownIgnore
  ∧ fitted 7 small_enc
  ∧ valid_frame small_train = true
  ∧ ∃ labels,
      predict small_enc large_amount small_train = Ok labels
      ∧ length labels = nrows small_train
      ∧ ∀ i row, data small_train !! i = Some row →
          labels !! i
            = Some (if proba_above_half large_amount
                         (assemble_row small_enc (columns small_train) row)
                    then 1%Z else 0%Z)
          ∧ predict small_enc large_amount
              {| columns := columns small_train; data := [row] |}
            = Ok [if proba_above_half large_amount
                       (assemble_row small_enc (columns small_train) row)
                  then 1%Z else 0%Z].
Proof.
  split; [reflexivity|]. split; [exact small_enc_fitted|]. split; [reflexivity|].
  apply (predict_one_label_per_record small_enc large_amount small_train);
    [reflexivity|exact small_enc_fitted|reflexivity].
Defined.

Lemma predict_unseen_category_witness :
  handle_unknown small_enc = UnknownIgnore
  ∧ fitted 7 small_enc
  ∧ valid_frame (from_records unseen_card_body) = true
  ∧ cat_index (Str "discover") [Str "mastercard"; Str "visa"] = None
  ∧ ∃ labels before after,
      predict small_enc large_amount (from_records unseen_card_body) = Ok labels
      ∧ length labels = nrows (from_records unseen_card_body)
      ∧ labels !! 0
        = Some (if proba_above_half large_amount
                     (assemble_row small_enc (columns (from_records unseen_card_body))
                        [Num 30%Z; Str "W"; Str "discover"; Str "live.com";
                         Str "gmail.com"; Str "T"; Str "T"; Str "T"])
                then 1%Z else 0%Z)
      ∧ encode_cell (handle_unknown small_enc) [Str "mastercard"; Str "visa"]
          (Str "discover") = Ok (zeros 2)
      ∧ assemble_row small_enc (columns (from_records unseen_card_body))
          [Num 30%Z; Str "W"; Str "discover"; Str "live.com"; Str "gmail.com";
           Str "T"; Str "T"; Str "T"]
        = before ++ zeros 2 ++ after
      ∧ length before = encoded_width (take 3 (categories_ small_enc)).
Proof.
  split; [reflexivity|]. split; [exact small_enc_fitted|]. split; [reflexivity|].
  split; [reflexivity|].
  apply (predict_unseen_category small_enc large_amount (from_records unseen_card_body)
           0 3 _ "card4" [Str "mastercard"; Str "visa"] (Str "discover"));
    solve [reflexivity | exact small_enc_fitted].
Defined.


(** C3, as the claim states it: the request without [TransactionAmt]
    raises [KeyError], not [ValidationError]. *)
Lemma missing_amount_is_KeyError :
  predict small_enc large_amount (from_records no_amount_body)
    = Raise (KeyError ["TransactionAmt"])
  ∧ ∀ msg, predict small_enc large_amount (from_records no_amount_body)
           ≠ Raise (ValidationError msg).
Proof. split; [reflexivity|]. intros msg. discriminate. Qed.

Lemma missing_column_raises_KeyError_witness :
  handle_unknown (ohe_encoder small_service) = UnknownIgnore
  ∧ fitted 7 (ohe_encoder small_service)
  ∧ req_method no_amount_request = POST
  ∧ req_path no_amount_request = "/fraud-classifier"
  ∧ "TransactionAmt" ∈ schema_fields
  ∧ has_column (columns (from_records (req_body no_amount_request))) "TransactionAmt" = false
  ∧ ∃ missing,
      missing ≠ []
      ∧ (∀ m, m ∈ missing →
           m ∈ schema_fields ∧ m ∉ columns (from_records (req_body no_amount_request)))
      ∧ predict (ohe_encoder small_service) (fraud_classifier_runner small_service)
          (from_records (req_body no_amount_request)) = Raise (KeyError missing)
      ∧ handle small_service no_amount_request = Failed (KeyError missing)
      ∧ serve small_service (no_amount_request :: [example_request])
        = Failed (KeyError missing) :: serve small_service [example_request].
Proof.
  assert (Hin : "TransactionAmt" ∈ schema_fields) by (apply amount_in_schema; left).
  split; [reflexivity|]. split; [exact small_enc_fitted|]. split; [reflexivity|].
  split; [reflexivity|]. split; [exact Hin|]. split; [reflexivity|].
  apply (missing_column_raises_KeyError small_service no_amount_request "TransactionAmt"
           [example_request]);
    solve [reflexivity | exact small_enc_fitted | exact Hin].
Defined.

Lemma save_then_load_latest_witness :
  reachable empty_store = true
  ∧ "fraud_classifier" ≠ ""
  ∧ (∀ k sig, predict_signature !! k = Some sig → supports empty_store sig = true)
  ∧ ∃ tag s' art,
      save_model "fraud_classifier" large_amount ∅ ∅ {["ohe_encoder" := small_enc]}
        predict_signature empty_store = (Ok ("fraud_classifier", tag), s')
      ∧ get "fraud_classifier" Latest s' = Ok art
      ∧ get "fraud_classifier" tag s' = Ok art
      ∧ art_model art = large_amount
      ∧ art_custom_objects art = {["ohe_encoder" := small_enc]}
      ∧ ∀ key enc df,
          ({["ohe_encoder" := small_enc]} : gmap string (OneHotEncoder Z)) !! key = Some enc →
          ∃ enc', art_custom_objects art !! key = Some enc'
                  ∧ predict enc' (art_model art) df = predict enc large_amount df.
Proof.
  assert (Hname : "fraud_classifier" ≠ "") by discriminate.
  assert (Hsup : ∀ k sig, predict_signature !! k = Some sig → supports empty_store sig = true)
    by (intros; reflexivity).
  split; [reflexivity|]. split; [exact Hname|]. split; [exact Hsup|].
  apply (save_then_load_latest "fraud_classifier" large_amount ∅ ∅
           {["ohe_encoder" := small_enc]} predict_signature empty_store);
    [reflexivity|exact Hname|exact Hsup].
Defined.

Lemma sequential_saves_keep_versions_witness :
  reachable empty_store = true
  ∧ "fraud_classifier" ≠ ""
  ∧ (∀ k sig, predict_signature !! k = Some sig → supports empty_store sig = true)
  ∧ ∃ tag1 tag2 s1 s2,
      save_model "fraud_classifier" large_amount ∅ ∅ {["ohe_encoder" := small_enc]}
        predict_signature empty_store = (Ok ("fraud_classifier", tag1), s1)
      ∧ save_model "fraud_classifier" never_fraud ∅ ∅ {["ohe_encoder" := small_enc]}
          predict_signature s1 = (Ok ("fraud_classifier", tag2), s2)
      ∧ tag1 ≠ tag2
      ∧ get "fraud_classifier" Latest s1
        = Ok (mkArtifact large_amount ∅ ∅ {["ohe_encoder" := small_enc]} predict_signature)
      ∧ get "fraud_classifier" tag1 s2
        = Ok (mkArtifact large_amount ∅ ∅ {["ohe_encoder" := small_enc]} predict_signature)
      ∧ get "fraud_classifier" tag2 s2
        = Ok (mkArtifact never_fraud ∅ ∅ {["ohe_encoder" := small_enc]} predict_signature)
      ∧ get "fraud_classifier" Latest s2
        = Ok (mkArtifact never_fraud ∅ ∅ {["ohe_encoder" := small_enc]} predict_signature)
      ∧ ∀ name0 n art,
          get name0 (Version n) empty_store = Ok art →
          get name0 (Version n) s1 = Ok art ∧ get name0 (Version n) s2 = Ok art.
Proof.
  assert (Hname : "fraud_classifier" ≠ "") by discriminate.
  assert (Hsup : ∀ k sig, predict_signature !! k = Some sig → supports empty_store sig = true)
    by (intros; reflexivity).
  split; [reflexivity|]. split; [exact Hname|]. split; [exact Hsup|].
  apply (sequential_saves_keep_versions "fraud_classifier" large_amount never_fraud
           ∅ ∅ ∅ ∅ {["ohe_encoder" := small_enc]} {["ohe_encoder" := small_enc]}
           predict_signature predict_signature empty_store);
    [reflexivity|exact Hname|exact Hsup|exact Hsup].
Defined.

(** C6, as the claim states it: with a classifier that stays below the
    threshold the same save, load and request give [0]. *)
Lemma example_request_can_return_0 :
  (svc ← load_service (saved_model never_fraud small_enc empty_store).2;
   Ok (handle svc example_request)) = Ok (Labels [0%Z])
  ∧ (svc ← load_service (saved_model never_fraud small_enc empty_store).2;
     Ok (handle svc example_request)) ≠ Ok (Labels [1%Z]).
Proof. split; [vm_compute; reflexivity|]. vm_compute. discriminate. Qed.

Lemma example_request_label_witness :
  reachable empty_store = true
  ∧ supports empty_store {| batchable := true; batch_dim := 0 |} = true
  ∧ handle_unknown small_enc = UnknownIgnore
  ∧ fitted 7 small_enc
  ∧ ∃ tag s' svc,
      saved_model large_amount small_enc empty_store = (Ok ("fraud_classifier", tag), s')
      ∧ load_service s' = Ok svc
      ∧ handle svc example_request
        = Labels [predict_row large_amount (example_features small_enc)]
      ∧ (handle svc example_request = Labels [1%Z]
         ↔ proba_above_half large_amount (example_features small_enc) = true).
Proof.
  split; [reflexivity|]. split; [reflexivity|]. split; [reflexivity|].
  split; [exact small_enc_fitted|].
  apply (example_request_label small_enc large_amount empty_store);
    solve [reflexivity | exact small_enc_fitted].
Defined.

Lemma example_bodies_agree :
  Forall2 (agree_on schema_fields) example_body example_body_extra.
Proof.
  repeat constructor. intros c Hc. unfold schema_fields in Hc.
  repeat (apply elem_of_cons in Hc as [->|Hc]; [reflexivity|]).
  by apply elem_of_nil in Hc.
Qed.

Lemma predict_ignores_extra_fields_witness :
  Forall2 (agree_on schema_fields) example_body example_body_extra
  ∧ predict small_enc large_amount (from_records example_body)
    = predict small_enc large_amount (from_records example_body_extra).
Proof.
  split; [exact example_bodies_agree|].
  apply (predict_ignores_extra_fields small_enc large_amount example_body
           example_body_extra).
  exact example_bodies_agree.
Defined.

(** C10. The two constructions are not equal.  On the training frame
    itself, whose missing values are [np.nan], the training cell puts
    each missing value in the [nan] category of its field, while
    [predict], after [fillna(pd.NA)], hands the encoder a value it does
    not know and gets the all-zeros block: the matrix the runner sees
    is not the matrix the classifier was trained on.  The request of
    the walkthrough, whose record is the first row of that frame, is
    such a case. *)
Lemma serving_differs_from_training :
  training_features small_train = Ok (small_enc, small_training_matrix)
  ∧ predict_input small_enc small_train = Ok small_serving_matrix
  ∧ small_serving_matrix ≠ small_training_matrix
  ∧ predict_input small_enc (from_records example_body)
    = Ok {| columns := small_columns; data := take 1 (data small_serving_matrix) |}
  ∧ take 1 (data small_serving_matrix) ≠ take 1 (data small_training_matrix).
Proof.
  split; [reflexivity|]. split; [reflexivity|]. split; [discriminate|].
  split; [reflexivity|discriminate].
Qed.

Lemma serving_layout_matches_training_witness :
  training_features small_train = Ok (small_enc, small_training_matrix)
  ∧ valid_frame (from_records example_body) = true
  ∧ ∃ Xs,
      predict_input small_enc (from_records example_body) = Ok Xs
      ∧ columns Xs = columns small_training_matrix
      ∧ columns small_training_matrix
        = get_feature_names_out small_enc ++ ["TransactionAmt"]
      ∧ data small_training_matrix
        = training_row small_enc (columns small_train) <$> data small_train
      ∧ data Xs
        = assemble_row small_enc (columns (from_records example_body))
            <$> data (from_records example_body)
      ∧ ∀ row,
          (∀ c, c ∈ ["ProductCD"; "P_emaildomain"; "R_emaildomain"; "card4";
                     "M1"; "M2"; "M3"] →
                isna (cell_at (columns (from_records example_body)) row c) = false) →
          assemble_row small_enc (columns (from_records example_body)) row
          = training_row small_enc (columns (from_records example_body)) row.
Proof.
  split; [exact small_train_features|]. split; [reflexivity|].
  apply (serving_layout_matches_training small_train (from_records example_body)
           small_enc small_training_matrix);
    [exact small_train_features|reflexivity].
Defined.

(** * Further properties of the code *)

Section Coverage.
Context {num : Type} `{PyNum num}.

Abbreviation cell := (cell num).

(** ** When [predict] succeeds, and with what *)

Lemma traverse_app {A B} (f : A → result B) (l1 l2 : list A) :
  traverse f (l1 ++ l2) = (a ← traverse f l1; b ← traverse f l2; Ok (a ++ b)).
Proof.
  induction l1 as [|x l1 IH]; cbn.
  - by destruct (traverse f l2).
  - destruct (f x) as [y|e]; cbn; [|done]. rewrite IH.
    destruct (traverse f l1) as [a|e]; cbn; [|done].
    by destruct (traverse f l2).
Qed.

Lemma encode_cell_Ok (policy : unknown_policy) (cats : list cell) (c : cell) (b : list cell) :
  encode_cell policy cats c = Ok b → b = one_hot cats c.
Proof.
  unfold encode_cell, one_hot. destruct (cat_index c cats); [by intros [= <-]|].
  destruct policy; [done|by intros [= <-]].
Qed.

Lemma encode_row_Ok (policy : unknown_policy) (cats : list (list cell)) (row r : list cell) :
  encode_row policy cats row = Ok r → r = one_hot_row cats row.
Proof.
  revert row r. induction cats as [|cs cats IH]; intros [|c row] r; cbn;
    try (by intros [= <-]).
  destruct (encode_cell policy cs c) as [b|e] eqn:Eb; cbn; [|done].
  destruct (encode_row policy cats row) as [rest|e] eqn:Er; cbn; [|done].
  intros [= <-]. apply encode_cell_Ok in Eb as ->. by rewrite (IH _ _ Er).
Qed.

Lemma append_labels (clf : XGBClassifier num) (g : list cell → cell)
    (arr rows : list (list cell)) :
  predict_row clf <$>
    zip_with (λ (row : list cell) c, row ++ [c]) arr (concat ((λ row, [g row]) <$> rows))
  = zip_with (λ r row, predict_row clf (r ++ [g row])) arr rows.
Proof.
  revert rows. induction arr as [|r arr IH]; intros [|row rows]; cbn; try done.
  f_equal. apply IH.
Qed.

Lemma traverse_Forall {A B} (f : A → result B) (P : B → Prop) (l : list A) (k : list B) :
  traverse f l = Ok k → (∀ x y, f x = Ok y → P y) → Forall P k.
Proof.
  intros Hk HP. revert k Hk. induction l as [|x l IH]; intros k; cbn.
  - intros [= <-]. constructor.
  - destruct (f x) as [y|e] eqn:Ef; cbn; [|done].
    destruct (traverse f l) as [ys|e]; cbn; [|done].
    intros [= <-]. constructor; [by eapply HP|by apply IH].
Qed.

Lemma appended_numeric (g : list cell → cell) (arr rows : list (list cell)) :
  length arr = length rows →
  Forall (λ r, forallb is_numeric r = true) arr →
  forallb (forallb is_numeric)
    (zip_with (λ (row : list cell) c, row ++ [c]) arr (concat ((λ row, [g row]) <$> rows)))
  = forallb (λ row, is_numeric (g row)) rows.
Proof.
  intros Hlen Harr. revert rows Hlen.
  induction Harr as [|r arr Hr _ IH]; intros [|row rows] Hlen; cbn in *; try done.
  rewrite forallb_app, Hr. cbn. rewrite andb_true_r. f_equal. apply IH. lia.
Qed.

(** The runner on the matrix [predict] assembles from encoded rows. *)
Lemma run_appended (clf : XGBClassifier num) (names : list string) (g : list cell → cell)
    (arr rows : list (list cell)) :
  length arr = length rows →
  Forall (λ r, forallb is_numeric r = true) arr →
  run clf {| columns := names;
             data := zip_with (λ (row : list cell) c, row ++ [c]) arr
                       (concat ((λ row, [g row]) <$> rows)) |}
  = if forallb (λ row, is_numeric (g row)) rows
    then Ok (zip_with (λ r row, predict_row clf (r ++ [g row])) arr rows)
    else Raise (ValueError "DataFrame.dtypes for data must be int, float, bool or category").
Proof.
  intros Hlen Harr. unfold run. cbn [data].
  by rewrite (appended_numeric g arr rows Hlen Harr), append_labels.
Qed.

Lemma predict_Ok_iff (enc : OneHotEncoder num) (clf : XGBClassifier num)
    (df : DataFrame num) (labels : list Z) :
  predict enc clf df = Ok labels ↔
    forallb (has_column (columns df))
      ["ProductCD"; "P_emaildomain"; "R_emaildomain"; "card4"; "M1"; "M2"; "M3"] = true
    ∧ forallb (has_column (columns df)) ["TransactionAmt"] = true
    ∧ length (categories_ enc) = 7
    ∧ (nrows df =? 0)%nat = false
    ∧ numeric_amounts df = true
    ∧ ∃ arr,
        traverse (encode_row (handle_unknown enc) (categories_ enc))
          (encoder_input (columns df) <$> data df) = Ok arr
        ∧ forallb (λ r, length r =? length (get_feature_names_out enc))%nat arr = true
        ∧ labels = zip_with (λ r row, predict_row clf
                                        (r ++ [cell_at (columns df) row "TransactionAmt"]))
                     arr (data df).
Proof.
  unfold predict.
  destruct (getitem_cases df
    ["ProductCD"; "P_emaildomain"; "R_emaildomain"; "card4"; "M1"; "M2"; "M3"])
    as [Hc|(missing & _ & _ & Hget)]; cycle 1.
  { rewrite Hget. split; [done|]. intros (Hc & _).
    rewrite (getitem_present _ _ Hc) in Hget. done. }
  rewrite (getitem_present _ _ Hc). cbn [mbind result_bind].
  unfold transform, fillna, nrows. cbn [columns data]. rewrite !length_fmap.
  rewrite <- list_fmap_compose.
  change (_ ∘ _) with (encoder_input (num:=num) (columns df)).
  cbn [length].
  destruct (Nat.eqb_spec 7 (length (categories_ enc))) as [Hlen|Hlen]; cbn [negb]; cycle 1.
  { split; [done|]. intros (_ & _ & ? & _). congruence. }
  destruct (length (data df) =? 0)%nat eqn:Hn.
  { split; [done|]. intros (_ & _ & _ & ? & _). done. }
  destruct (traverse _ _) as [arr|e] eqn:Harr; cbn [mbind result_bind]; cycle 1.
  { split; [done|]. by intros (_ & _ & _ & _ & _ & arr & [=] & _). }
  unfold DataFrame_init.
  destruct (forallb _ arr) eqn:Hshape; cbn [mbind result_bind]; cycle 1.
  { split; [done|]. intros (_ & _ & _ & _ & _ & arr' & [= <-] & Hs & _). congruence. }
  destruct (getitem_cases df ["TransactionAmt"]) as [Ha|(missing & _ & _ & Hget)]; cycle 1.
  { rewrite Hget. split; [done|]. intros (_ & Ha & _).
    rewrite (getitem_present _ _ Ha) in Hget. done. }
  rewrite (getitem_present _ _ Ha). cbn [mbind result_bind].
  unfold setitem, to_numpy, nrows. cbn [columns data].
  pose proof (traverse_length _ _ _ Harr) as Hrows. rewrite length_fmap in Hrows.
  rewrite Hrows, !length_fmap, Nat.eqb_refl. cbn [negb].
  rewrite (proj2 (forallb_forall _ _)); cycle 1.
  { by intros row (r & <- & _)%in_map_iff. }
  cbn [negb]. rewrite TransactionAmt_is_new. cbn [mbind result_bind].
  rewrite (run_appended clf _ (λ row, cell_at (columns df) row "TransactionAmt")
             arr (data df) Hrows); cycle 1.
  { apply (traverse_Forall _ _ _ _ Harr). intros x y ->%encode_row_Ok.
    apply binary_numeric, one_hot_row_binary. }
  fold (numeric_amounts df). destruct (numeric_amounts df); cycle 1.
  { split; [done|]. by intros (_ & _ & _ & _ & [=] & _). }
  split.
  - intros [= <-]. repeat split; try done. by exists arr.
  - intros (_ & _ & _ & _ & _ & arr' & [= <-] & _ & ->). done.
Qed.

Lemma predict_Ok_length (enc : OneHotEncoder num) (clf : XGBClassifier num)
    (df : DataFrame num) (labels : list Z) :
  predict enc clf df = Ok labels → length labels = nrows df.
Proof.
  intros (_ & _ & _ & _ & _ & arr & Harr & _ & ->)%predict_Ok_iff.
  apply traverse_length in Harr. rewrite length_fmap in Harr.
  rewrite length_zip_with. unfold nrows. lia.
Qed.

(** X1. Whatever encoder and classifier the service holds, an answer
    with labels has exactly one label for each record of the request
    body. *)
Theorem handle_one_label_per_record (svc : Service num) (req : request num)
    (labels : list Z) :
  handle svc req = Labels labels → length labels = length (req_body req).
Proof.
  rewrite handle_route.
  destruct (String.eqb _ _); [|done]. destruct (req_method req); [done|].
  destruct (predict _ _ _) as [labels'|e] eqn:Hpred; [|done].
  intros [= <-]. by rewrite (predict_Ok_length _ _ _ _ Hpred), from_records_nrows.
Qed.

(** X2. Batching along dimension 0: for two non-empty groups of rows
    under the same columns, [predict] succeeds on the merged frame
    exactly when it succeeds on both groups, and the labels of the
    merged frame are the labels of the first group followed by those of
    the second. *)
Theorem predict_batches_compose (enc : OneHotEncoder num) (clf : XGBClassifier num)
    (cols : list string) (rows1 rows2 : list (list cell)) (labels : list Z) :
  rows1 ≠ [] → rows2 ≠ [] →
  predict enc clf {| columns := cols; data := rows1 ++ rows2 |} = Ok labels ↔
    ∃ l1 l2,
      labels = l1 ++ l2
      ∧ predict enc clf {| columns := cols; data := rows1 |} = Ok l1
      ∧ predict enc clf {| columns := cols; data := rows2 |} = Ok l2.
Proof.
  intros Hne1 Hne2. rewrite predict_Ok_iff.
  unfold nrows, numeric_amounts. cbn [columns data].
  rewrite fmap_app, traverse_app, forallb_app, andb_true_iff. split.
  - intros (Hc & Ha & Hlen & _ & [Hn1 Hn2] & arr & Harr & Hshape & ->).
    destruct (traverse _ (_ <$> rows1)) as [a1|e] eqn:E1; cbn [mbind result_bind] in Harr;
      [|done].
    destruct (traverse _ (_ <$> rows2)) as [a2|e] eqn:E2; cbn [mbind result_bind] in Harr;
      [|done].
    injection Harr as <-. rewrite forallb_app in Hshape.
    apply andb_true_iff in Hshape as [Hs1 Hs2].
    pose proof (traverse_length _ _ _ E1) as Hl1. rewrite length_fmap in Hl1.
    eexists _, _. split; [by apply zip_with_app|].
    split; apply predict_Ok_iff; unfold nrows, numeric_amounts; cbn [columns data];
      (repeat split; [done|done|done|by destruct rows1, rows2|done|by eauto]).
  - intros (l1 & l2 & -> & H1 & H2).
    apply predict_Ok_iff in H1 as (Hc & Ha & Hlen & _ & Hn1 & a1 & E1 & Hs1 & ->).
    apply predict_Ok_iff in H2 as (_ & _ & _ & _ & Hn2 & a2 & E2 & Hs2 & ->).
    unfold numeric_amounts in Hn1, Hn2.
    cbn [columns data] in *. rewrite E1, E2. cbn [mbind result_bind].
    pose proof (traverse_length _ _ _ E1) as Hl1. rewrite length_fmap in Hl1.
    repeat split; try done; [by destruct rows1|].
    exists (a1 ++ a2). split; [done|]. split; [by rewrite forallb_app, Hs1, Hs2|].
    symmetry. by apply zip_with_app.
Qed.

Lemma encode_row_succeeds (policy : unknown_policy) (cats : list (list cell))
    (row : list cell) :
  (∃ r, encode_row policy cats row = Ok r) ↔
    policy = UnknownIgnore
    ∨ ∀ j cs c, cats !! j = Some cs → row !! j = Some c → is_Some (cat_index c cs).
Proof.
  split.
  - destruct policy; [|by left]. right. revert row H0.
    induction cats as [|cs cats IH]; intros [|c row] [r Hr] j cs' c'; try done.
    cbn in Hr.
    destruct (encode_cell UnknownError cs c) as [b|e] eqn:Eb; cbn in Hr; [|done].
    destruct (encode_row UnknownError cats row) as [rest|e] eqn:Er; cbn in Hr; [|done].
    destruct j as [|j]; cbn.
    + intros [= <-] [= <-]. unfold encode_cell in Eb.
      destruct (cat_index c cs); [by eauto|done].
    + apply IH. by eauto.
  - intros [->|Hknown]; [rewrite encode_row_ignore; by eauto|].
    revert row Hknown. induction cats as [|cs cats IH]; intros [|c row] Hknown; cbn;
      try by eauto.
    destruct (Hknown 0 cs c eq_refl eq_refl) as [i Hi].
    unfold encode_cell. rewrite Hi. cbn.
    destruct (IH row) as [rest ->]; [|cbn; by eauto].
    intros j cs' c'. apply (Hknown (S j)).
Qed.

Lemma traverse_succeeds {A B} (f : A → result B) (l : list A) :
  (∃ k, traverse f l = Ok k) ↔ ∀ x, x ∈ l → ∃ y, f x = Ok y.
Proof.
  induction l as [|x l IH]; cbn.
  - split; [by intros _ x ?%elem_of_nil|by eauto].
  - split.
    + intros [k Hk] y Hy. destruct (f x) as [b|e] eqn:Ef; cbn in Hk; [|done].
      destruct (traverse f l) as [bs|e] eqn:Et; cbn in Hk; [|done].
      apply elem_of_cons in Hy as [->|Hy]; [by eauto|].
      apply IH; by eauto.
    + intros Hall. destruct (Hall x) as [b ->]; [left|]. cbn.
      destruct (proj2 IH) as [bs ->]; [|cbn; by eauto].
      intros y Hy. apply Hall. by right.
Qed.

Lemma traverse_lookup {A B} (f : A → result B) (l : list A) (k : list B) (i : nat) (y : B) :
  traverse f l = Ok k → k !! i = Some y → ∃ x, l !! i = Some x ∧ f x = Ok y.
Proof.
  revert k i. induction l as [|x l IH]; intros k i Hk Hi; cbn in Hk.
  - injection Hk as <-. done.
  - destruct (f x) as [b|e] eqn:Ef; cbn in Hk; [|done].
    destruct (traverse f l) as [bs|e] eqn:Et; cbn in Hk; [|done].
    injection Hk as <-. destruct i as [|i]; cbn in Hi.
    + injection Hi as <-. by exists x.
    + by apply (IH bs).
Qed.

(** X3. For an encoder fitted on seven columns and a frame with
    distinct column names whose categorical cells are strings or
    missing, [predict] succeeds exactly when the frame has the eight
    schema columns and at least one row, every [TransactionAmt] is a
    number or [np.nan], and the encoder ignores unknown values or every
    categorical value it is handed is one of its categories.  Nothing
    else in [predict] can fail. *)
Theorem predict_succeeds_iff (enc : OneHotEncoder num) (clf : XGBClassifier num)
    (df : DataFrame num) :
  fitted 7 enc →
  is_unique (columns df) = true →
  string_categories df = true →
  (∃ labels, predict enc clf df = Ok labels) ↔
    valid_frame df = true
    ∧ (handle_unknown enc = UnknownIgnore
       ∨ ∀ row j cs c,
           row ∈ data df →
           categories_ enc !! j = Some cs →
           encoder_input (columns df) row !! j = Some c →
           is_Some (cat_index c cs)).
Proof.
  intros [Hnames Hcats] Huniq Hstr. split.
  - intros [labels (Hc & Ha & _ & Hn & Hnum & arr & Harr & _)%predict_Ok_iff].
    split; [by apply valid_frame_intro|].
    destruct (handle_unknown enc) eqn:Hpol; [right|by left].
    intros row j cs c Hrow.
    assert (∃ r, encode_row UnknownError (categories_ enc)
                   (encoder_input (columns df) row) = Ok r) as Hr.
    { eapply (proj1 (traverse_succeeds _ _)); [by eauto|].
      apply list_elem_of_fmap. by eauto. }
    apply encode_row_succeeds in Hr as [?|Hr]; [done|]. apply Hr.
  - intros [(Hc & Ha & Hn & Hnum)%valid_frame_columns Hknown].
    assert (∃ arr, traverse (encode_row (handle_unknown enc) (categories_ enc))
                     (encoder_input (columns df) <$> data df) = Ok arr) as [arr Harr].
    { apply traverse_succeeds. intros x (row & -> & Hrow)%list_elem_of_fmap.
      apply encode_row_succeeds. destruct Hknown as [?|Hknown]; [by left|right].
      intros j cs c. by apply Hknown. }
    eexists. apply predict_Ok_iff. repeat split; try done.
    exists arr. split; [done|]. split; [|done].
    apply forallb_forall. intros r Hr%list_elem_of_In. apply Nat.eqb_eq.
    apply list_elem_of_lookup in Hr as [i Hi].
    destruct (traverse_lookup _ _ _ _ _ Harr Hi) as (row & Hrow & Henc).
    apply encode_row_Ok in Henc as ->.
    rewrite one_hot_row_length, get_feature_names_out_length; [done|lia|].
    apply list_lookup_fmap_Some in Hrow as (row' & -> & _).
    unfold encoder_input. rewrite length_fmap, Hcats. done.
Qed.

(** X4. The encoder that the training cell fits is always fit for
    serving: with it [predict] answers every valid frame with one label
    per row, whatever categorical values the frame holds. *)
Theorem trained_encoder_serves (train df : DataFrame num) (enc : OneHotEncoder num)
    (Xt : DataFrame num) (clf : XGBClassifier num) :
  training_features train = Ok (enc, Xt) →
  valid_frame df = true →
  ∃ labels,
    predict enc clf df = Ok labels
    ∧ length labels = nrows df
    ∧ ∀ i row, data df !! i = Some row →
        labels !! i = Some (predict_row clf (assemble_row enc (columns df) row)).
Proof.
  intros (Hpol & Hfit & _)%training_features_inv Hvalid.
  eexists. split; [by apply predict_valid|]. split; [by rewrite length_fmap|].
  intros i row Hrow. by rewrite list_lookup_fmap, Hrow.
Qed.

(** ** What [enc.fit] learns *)

Lemma insert_sorted_perm (x : cell) (l r : list cell) :
  insert_sorted x l = Ok r → r ≡ₚ x :: l.
Proof.
  revert r. induction l as [|y l IH]; intros r; cbn.
  - by intros [= <-].
  - destruct (py_lt x y) as [[]|e]; cbn; [by intros [= <-]| |done].
    destruct (insert_sorted x l) as [r'|e]; cbn; [|done].
    intros [= <-]. rewrite (IH r' eq_refl). apply Permutation_swap.
Qed.

Lemma py_sorted_perm (l s : list cell) : py_sorted l = Ok s → s ≡ₚ l.
Proof.
  revert s. induction l as [|x l IH]; intros s; cbn.
  - by intros [= <-].
  - destruct (py_sorted l) as [s'|e]; cbn; [|done].
    intros Hs%insert_sorted_perm. by rewrite Hs, (IH s' eq_refl).
Qed.

Lemma py_set_elem_of (seen values : list cell) (u : cell) :
  u ∈ py_set seen values → u ∈ values.
Proof.
  revert seen. induction values as [|v values IH]; intros seen; cbn; [done|].
  destruct (existsb (cell_eqb v) seen).
  - intros Hu%IH. by right.
  - intros [->|Hu%IH]%elem_of_cons; [left|by right].
Qed.

Lemma cell_eqb_refl (c : cell) :
  (∀ x : num, num_eqb x x = true) → cell_eqb c c = true.
Proof. intros Hrefl. destruct c; cbn; auto using String.eqb_refl. Qed.

Lemma py_set_covers (seen values : list cell) (v : cell) :
  (∀ x : num, num_eqb x x = true) →
  v ∈ values →
  ∃ u, (u ∈ seen ∨ u ∈ py_set seen values) ∧ cell_eqb v u = true.
Proof.
  intros Hrefl. revert seen. induction values as [|v0 values IH]; intros seen Hv.
  { by apply elem_of_nil in Hv. }
  cbn. destruct (existsb (cell_eqb v0) seen) eqn:E.
  - apply elem_of_cons in Hv as [->|Hv]; [|by apply IH].
    apply existsb_exists in E as (u & Hu%list_elem_of_In & Heq). by eauto.
  - apply elem_of_cons in Hv as [->|Hv].
    + exists v0. split; [right; left|by apply cell_eqb_refl].
    + destruct (IH (v0 :: seen) Hv) as (u & [Hu|Hu] & Heq).
      * apply elem_of_cons in Hu as [->|Hu].
        -- exists v0. split; [right; left|done].
        -- exists u. split; [by left|done].
      * exists u. split; [right; by right|done].
Qed.

Lemma unique_python_elem_of (values cs : list cell) (t : cell) :
  unique_python values = Ok cs → t ∈ cs → t ∈ values.
Proof.
  unfold unique_python.
  destruct (py_sorted _) as [s|e] eqn:Es; cbn; [|done].
  intros [= <-]. rewrite !elem_of_app. intros [Ht|[Ht|Ht]].
  - apply py_sorted_perm in Es. rewrite Es in Ht.
    apply list_elem_of_filter in Ht as [_ Ht]. by eapply py_set_elem_of.
  - destruct (existsb is_none _) eqn:E; [|by apply elem_of_nil in Ht].
    apply list_elem_of_singleton in Ht as ->.
    apply existsb_exists in E as (u & Hu%list_elem_of_In & Hnone).
    destruct u; try done. by eapply py_set_elem_of.
  - destruct (existsb is_nan _) eqn:E; [|by apply elem_of_nil in Ht].
    apply list_elem_of_singleton in Ht as ->.
    apply existsb_exists in E as (u & Hu%list_elem_of_In & Hnan).
    destruct u; try done. by eapply py_set_elem_of.
Qed.

Lemma unique_python_covers (values cs : list cell) (v : cell) :
  (∀ x : num, num_eqb x x = true) →
  unique_python values = Ok cs → v ∈ values →
  ∃ t, t ∈ cs ∧ cell_eqb v t = true.
Proof.
  intros Hrefl Hcs Hv.
  destruct (py_set_covers [] values v Hrefl Hv) as (u & [Hu|Hu] & Heq).
  { by apply elem_of_nil in Hu. }
  revert Hcs. unfold unique_python.
  destruct (py_sorted _) as [s|e] eqn:Es; cbn; [|done].
  intros [= <-]. exists u. split; [|done]. rewrite !elem_of_app.
  destruct (is_none u || is_nan u) eqn:Emiss.
  - apply orb_true_iff in Emiss as [Hn|Hn]; destruct u; try done.
    + right; left. rewrite (proj2 (existsb_exists _ _)); [left|].
      exists PyNone. split; [by apply list_elem_of_In|done].
    + right; right. rewrite (proj2 (existsb_exists _ _)); [left|].
      exists NaN. split; [by apply list_elem_of_In|done].
  - left. apply py_sorted_perm in Es. rewrite Es. by apply list_elem_of_filter.
Qed.

Lemma cat_index_Some (c : cell) (cats : list cell) (i : nat) :
  cat_index c cats = Some i → ∃ t, cats !! i = Some t ∧ cell_eqb c t = true.
Proof.
  revert i. induction cats as [|t cats IH]; intros i; cbn; [done|].
  destruct (cell_eqb c t) eqn:E.
  - intros [= <-]. by exists t.
  - destruct (cat_index c cats) as [j|]; cbn; [|done].
    intros [= <-]. by apply IH.
Qed.

Lemma cat_index_is_Some (c : cell) (cats : list cell) (t : cell) :
  t ∈ cats → cell_eqb c t = true → is_Some (cat_index c cats).
Proof.
  induction cats as [|t' cats IH]; intros Ht Heq; [by apply elem_of_nil in Ht|].
  cbn. destruct (cell_eqb c t') eqn:E; [by eauto|].
  apply elem_of_cons in Ht as [->|Ht]; [congruence|].
  destruct (IH Ht Heq) as [j ->]. by eauto.
Qed.

Lemma fit_categories (policy : unknown_policy) (X : DataFrame num)
    (enc : OneHotEncoder num) (j : nat) (cs : list cell) :
  fit policy X = Ok enc →
  categories_ enc !! j = Some cs →
  unique_python (column_values X j) = Ok cs.
Proof.
  unfold fit. destruct (nrows X =? 0)%nat; [done|].
  destruct (traverse _ _) as [cats|e] eqn:E; cbn [mbind result_bind]; [|done].
  intros [= <-]. cbn [categories_]. intros Hj.
  destruct (traverse_lookup _ _ _ _ _ E Hj) as (x & Hx & Hu).
  apply lookup_seq in Hx as [-> _]. done.
Qed.

Lemma training_features_fit (train : DataFrame num) (enc : OneHotEncoder num)
    (Xt : DataFrame num) :
  training_features train = Ok (enc, Xt) →
  fit UnknownIgnore
    {| columns := ["ProductCD"; "P_emaildomain"; "R_emaildomain"; "card4"; "M1"; "M2"; "M3"];
       data := (λ row : list cell, cell_at (columns train) row <$>
                  ["ProductCD"; "P_emaildomain"; "R_emaildomain"; "card4"; "M1"; "M2"; "M3"])
               <$> data train |} = Ok enc.
Proof.
  unfold training_features.
  destruct (getitem_cases train
    ["ProductCD"; "P_emaildomain"; "R_emaildomain"; "card4"; "M1"; "M2"; "M3"])
    as [Hc|(missing & _ & _ & ->)]; [|done].
  rewrite (getitem_present _ _ Hc). cbn [mbind result_bind].
  destruct (fit UnknownIgnore _) as [enc'|e]; cbn [mbind result_bind]; [|done].
  destruct (transform enc' _) as [arr|e]; cbn [mbind result_bind]; [|done].
  destruct (DataFrame_init arr _) as [X0|e]; cbn [mbind result_bind]; [|done].
  destruct (getitem train [_]) as [amt|e]; cbn [mbind result_bind]; [|done].
  destruct (setitem X0 _ _) as [X1|e]; cbn [mbind result_bind]; [|done].
  by intros [= <- _].
Qed.

Lemma training_column_values (train : DataFrame num) (j : nat) (field : string) :
  ["ProductCD"; "P_emaildomain"; "R_emaildomain"; "card4"; "M1"; "M2"; "M3"] !! j
    = Some field →
  column_values
    {| columns := ["ProductCD"; "P_emaildomain"; "R_emaildomain"; "card4"; "M1"; "M2"; "M3"];
       data := (λ row : list cell, cell_at (columns train) row <$>
                  ["ProductCD"; "P_emaildomain"; "R_emaildomain"; "card4"; "M1"; "M2"; "M3"])
               <$> data train |} j
  = (λ row, cell_at (columns train) row field) <$> data train.
Proof.
  intros Hfield. unfold column_values. cbn [data]. rewrite <- list_fmap_compose.
  apply list_fmap_ext. intros _ row _. unfold compose.
  by rewrite list_lookup_fmap, Hfield.
Qed.

(** X5. In the training matrix no cell goes through the unknown-value
    fallback: the encoder was fitted on the very frame it transforms,
    so every categorical cell of a training row, missing values
    included, is one of the categories of its feature and its block is
    a unit vector. *)
Theorem training_values_are_known (train : DataFrame num) (enc : OneHotEncoder num)
    (Xt : DataFrame num) (row : list cell) (j : nat) (field : string) (cs : list cell) :
  (∀ x : num, num_eqb x x = true) →
  training_features train = Ok (enc, Xt) →
  row ∈ data train →
  ["ProductCD"; "P_emaildomain"; "R_emaildomain"; "card4"; "M1"; "M2"; "M3"] !! j
    = Some field →
  categories_ enc !! j = Some cs →
  ∃ i t,
    cat_index (cell_at (columns train) row field) cs = Some i
    ∧ cs !! i = Some t
    ∧ cell_eqb (cell_at (columns train) row field) t = true
    ∧ one_hot cs (cell_at (columns train) row field)
      = <[i := Num num_one]> (zeros (length cs)).
Proof.
  intros Hrefl Hfit%training_features_fit Hrow Hfield Hcs.
  pose proof (fit_categories _ _ _ _ _ Hfit Hcs) as Huniq.
  rewrite (training_column_values train j field Hfield) in Huniq.
  destruct (unique_python_covers _ _ (cell_at (columns train) row field) Hrefl Huniq)
    as (t & Ht & Heq).
  { apply list_elem_of_fmap. by exists row. }
  destruct (cat_index_is_Some _ _ _ Ht Heq) as [i Hi].
  destruct (cat_index_Some _ _ _ Hi) as (t' & Ht' & Heq').
  exists i, t'. unfold one_hot. by rewrite Hi.
Qed.

Lemma cell_at_elem_of (cols : list string) (row : list cell) (c : string) :
  cell_at cols row c = NaN ∨ cell_at cols row c ∈ row.
Proof.
  unfold cell_at. destruct (get_loc c cols) as [i|]; cbn; [|by left].
  destruct (row !! i) as [v|] eqn:E; cbn; [|by left].
  right. by eapply list_elem_of_lookup_2.
Qed.

(** X6. When the training frame holds no [pd.NA] in its categorical
    columns (as a frame read from CSV does), the service encodes every
    missing categorical value, be it [None], [np.nan] or [pd.NA], as
    the all-zeros block of its field, also for fields whose missing
    values were a category of their own during training. *)
Theorem serving_missing_is_zero_block (train df : DataFrame num)
    (enc : OneHotEncoder num) (Xt : DataFrame num) (row : list cell) (j : nat)
    (field : string) (cs : list cell) :
  training_features train = Ok (enc, Xt) →
  (∀ r, r ∈ data train → NA ∉ r) →
  ["ProductCD"; "P_emaildomain"; "R_emaildomain"; "card4"; "M1"; "M2"; "M3"] !! j
    = Some field →
  categories_ enc !! j = Some cs →
  isna (cell_at (columns df) row field) = true →
  ∃ before after,
    assemble_row enc (columns df) row = before ++ zeros (length cs) ++ after
    ∧ length before = encoded_width (take j (categories_ enc)).
Proof.
  intros Htrain HnoNA Hfield Hcs Hna.
  pose proof (training_features_fit _ _ _ Htrain) as Hfit.
  pose proof (fit_categories _ _ _ _ _ Hfit Hcs) as Huniq.
  rewrite (training_column_values train j field Hfield) in Huniq.
  assert (Hzero : one_hot cs NA = zeros (length cs)).
  { apply one_hot_unknown. destruct (cat_index NA cs) as [i|] eqn:Hi; [|done].
    exfalso. apply cat_index_Some in Hi as (t & Ht & Heq).
    destruct t; try done.
    apply list_elem_of_lookup_2, (unique_python_elem_of _ _ _ Huniq) in Ht.
    apply list_elem_of_fmap in Ht as (r & Hr & Hin).
    destruct (cell_at_elem_of (columns train) r field) as [Hnan|Hcell]; [congruence|].
    apply (HnoNA r Hin). by rewrite Hr. }
  set (filled := (λ c, let v := cell_at (columns df) row c in if isna v then NA else v) <$>
         ["ProductCD"; "P_emaildomain"; "R_emaildomain"; "card4"; "M1"; "M2"; "M3"]).
  assert (Hj : filled !! j = Some NA).
  { unfold filled. rewrite list_lookup_fmap, Hfield. cbn. by rewrite Hna. }
  exists (one_hot_row (take j (categories_ enc)) (take j filled)),
    (one_hot_row (drop (S j) (categories_ enc)) (drop (S j) filled)
       ++ [cell_at (columns df) row "TransactionAmt"]).
  split.
  - unfold assemble_row. fold filled.
    rewrite (one_hot_row_block _ _ j cs NA Hcs Hj), Hzero. by rewrite <- !app_assoc.
  - apply one_hot_row_length. rewrite !length_take.
    apply lookup_lt_Some in Hj, Hcs. lia.
Qed.

(** ** Missing values at serving time *)

Lemma fmap_related {A B} (R : A → A → Prop) (f : A → B) (l1 l2 : list A) :
  Forall2 R l1 l2 → (∀ a b, R a b → f a = f b) → f <$> l1 = f <$> l2.
Proof.
  intros Hl Hf. induction Hl as [|a b l1 l2 Hab _ IH]; [done|].
  cbn. by rewrite IH, (Hf a b Hab).
Qed.

Lemma encoder_input_same (cols : list string) (r1 r2 : list cell) :
  same_record cols r1 r2 → encoder_input cols r1 = encoder_input cols r2.
Proof.
  intros [Hcat _]. unfold encoder_input.
  apply list_fmap_ext. intros _ c Hc%list_elem_of_lookup_2. cbn.
  destruct (Hcat c Hc) as [->|[-> ->]]; done.
Qed.

(** X7. [predict] does not tell the missing markers apart: two frames
    with the same columns whose rows agree on [TransactionAmt] and, up
    to the kind of missing marker ([None], [np.nan], [pd.NA]), on the
    categorical fields get the same answer, labels or error, with any
    encoder. *)
Theorem predict_missing_markers_alike (enc : OneHotEncoder num) (clf : XGBClassifier num)
    (df1 df2 : DataFrame num) :
  columns df1 = columns df2 →
  Forall2 (same_record (columns df1)) (data df1) (data df2) →
  predict enc clf df1 = predict enc clf df2.
Proof.
  intros Hcols Hrows.
  assert (Hsel : encoder_input (columns df1) <$> data df1
               = encoder_input (columns df1) <$> data df2).
  { apply (fmap_related _ _ _ _ Hrows). apply encoder_input_same. }
  assert (Hamt : (λ row : list cell, cell_at (columns df1) row <$> ["TransactionAmt"])
                   <$> data df1
               = (λ row : list cell, cell_at (columns df1) row <$> ["TransactionAmt"])
                   <$> data df2).
  { apply (fmap_related _ _ _ _ Hrows). intros r1 r2 [_ Hr]. cbn. by rewrite Hr. }
  unfold predict, getitem. rewrite <- Hcols.
  destruct (filter _ [_; _; _; _; _; _; _]); [|done]. cbn [mbind result_bind].
  unfold fillna. cbn [columns data]. rewrite <- !list_fmap_compose.
  change ((λ row : list cell, (λ c : cell, if isna c then NA else c) <$> row)
          ∘ (λ row : list cell, cell_at (columns df1) row <$>
               ["ProductCD"; "P_emaildomain"; "R_emaildomain"; "card4"; "M1"; "M2"; "M3"]))
    with (encoder_input (num:=num) (columns df1)).
  by rewrite Hsel, Hamt.
Qed.

(** ** The frame made from the request body *)

Lemma ordered_union_NoDup (seen ks : list string) : NoDup (ordered_union seen ks).
Proof.
  revert seen. induction ks as [|k ks IH]; intros seen; cbn; [constructor|].
  destruct (existsb (String.eqb k) seen); [apply IH|].
  constructor; [|apply IH].
  intros [_ Hk]%ordered_union_elem_of. apply Hk. left.
Qed.

Lemma is_unique_NoDup (cols : list string) : is_unique cols = true ↔ NoDup cols.
Proof.
  induction cols as [|c cols IH]; cbn.
  - split; [constructor|done].
  - rewrite andb_true_iff, negb_true_iff, NoDup_cons, IH.
    rewrite <- not_true_iff_false, existsb_exists.
    split; intros [Hc ?]; (split; [|done]); intros Hin; apply Hc.
    + exists c. split; [by apply list_elem_of_In|apply String.eqb_refl].
    + destruct Hin as (x & Hx & ->%String.eqb_eq). by apply list_elem_of_In.
Qed.

(** The columns of a frame read from records are distinct. *)
Lemma from_records_is_unique (batch : list (list (string * cell))) :
  is_unique (columns (from_records batch)) = true.
Proof. apply is_unique_NoDup, ordered_union_NoDup. Qed.

(** ** Encoded columns and their names *)

Lemma concat_zip_with_block {A B C} (F : A → B → list C) (l : list A) (k : list B)
    (j : nat) (a : A) (b : B) :
  l !! j = Some a → k !! j = Some b →
  concat (zip_with F l k) =
    concat (zip_with F (take j l) (take j k)) ++ F a b
      ++ concat (zip_with F (drop (S j) l) (drop (S j) k)).
Proof.
  revert l k. induction j as [|j IH]; intros [|a' l] [|b' k]; cbn; try done.
  - by intros [= ->] [= ->].
  - intros Hl Hk. rewrite <- app_assoc. f_equal. by apply IH.
Qed.

(** X9. The encoded columns carry the names of what they encode: when
    the cell of feature [j] is the [i]-th category of that feature, the
    row of the encoder output has a one at the position whose name in
    [get_feature_names_out] is the feature's name, an underscore and
    that category. *)
Theorem one_sits_under_its_name (enc : OneHotEncoder num) (row : list cell) (j i : nat)
    (f : string) (cs : list cell) (c : cell) :
  feature_names_in_ enc !! j = Some f →
  categories_ enc !! j = Some cs →
  row !! j = Some c →
  cat_index c cs = Some i →
  ∃ t,
    cs !! i = Some t
    ∧ cell_eqb c t = true
    ∧ get_feature_names_out enc !! (encoded_width (take j (categories_ enc)) + i)
      = Some (f +:+ "_" +:+ py_str t)
    ∧ one_hot_row (categories_ enc) row !! (encoded_width (take j (categories_ enc)) + i)
      = Some (Num num_one).
Proof.
  intros Hf Hcs Hrow Hi.
  destruct (cat_index_Some _ _ _ Hi) as (t & Ht & Heq).
  exists t. split; [done|]. split; [done|].
  pose proof (lookup_lt_Some _ _ _ Ht) as Hlt.
  split.
  - unfold get_feature_names_out.
    rewrite (concat_zip_with_block _ _ _ j f cs Hf Hcs).
    pose proof (get_feature_names_out_length
      {| handle_unknown := handle_unknown enc;
         feature_names_in_ := take j (feature_names_in_ enc);
         categories_ := take j (categories_ enc) |}) as Hlen.
    unfold get_feature_names_out in Hlen. cbn [feature_names_in_ categories_] in Hlen.
    rewrite lookup_app_r; rewrite Hlen; try lia.
    + rewrite Nat.add_comm, Nat.add_sub, lookup_app_l by (by rewrite length_fmap).
      by rewrite list_lookup_fmap, Ht.
    + rewrite !length_take. apply lookup_lt_Some in Hf, Hcs. lia.
    + rewrite !length_take. apply lookup_lt_Some in Hf, Hcs. lia.
  - rewrite (one_hot_row_block _ _ j cs c Hcs Hrow).
    assert (Hlen : length (one_hot_row (take j (categories_ enc)) (take j row))
                   = encoded_width (take j (categories_ enc))).
    { apply one_hot_row_length. rewrite !length_take.
      apply lookup_lt_Some in Hrow, Hcs. lia. }
    rewrite lookup_app_r; rewrite Hlen; [|lia].
    rewrite Nat.add_comm, Nat.add_sub, lookup_app_l by (by rewrite one_hot_length).
    unfold one_hot. rewrite Hi. apply list_lookup_insert_eq. by rewrite zeros_length.
Qed.

(** ** Balancing the classes *)

Lemma sample_rows (draw : list nat) (rows : list (list cell)) :
  Forall (λ i, i < length rows)%nat draw →
  Forall2 (λ row i, rows !! i = Some row) (omap (λ i, rows !! i) draw) draw.
Proof.
  induction 1 as [|i draw Hi _ IH]; cbn; [constructor|].
  destruct (lookup_lt_is_Some_2 rows i Hi) as [row Hrow].
  rewrite Hrow. by constructor.
Qed.

Lemma valid_draw_le (population n : nat) (draw : list nat) :
  valid_draw population n draw → (n ≤ population)%nat.
Proof.
  intros (<- & Hnodup & Hlt).
  replace population with (length (seq 0 population)) at 1 by apply length_seq.
  apply submseteq_length, NoDup_submseteq; [done|].
  intros i Hi. apply elem_of_seq. rewrite Forall_forall in Hlt. specialize (Hlt i Hi). lia.
Qed.

(** X10. The first statement of the training cell balances the classes.
    On a frame with an [isFraud] column it fails with [ValueError] when
    there are fewer rows with [isFraud == 0] than with [isFraud == 1];
    otherwise it returns as many rows with [isFraud == 0], taken from
    the frame at the drawn positions, as there are rows with
    [isFraud == 1], followed by all of the latter. *)
Theorem balance_classes (draw : list nat) (df : DataFrame num) :
  has_column (columns df) "isFraud" = true →
  if (length (rows_where df "isFraud" num_zero)
        <? length (rows_where df "isFraud" num_one))%nat
  then balance draw df
       = Attr (Raise (ValueError
                 "Cannot take a larger sample than population when 'replace=False'"))
  else
    valid_draw (length (rows_where df "isFraud" num_zero))
      (length (rows_where df "isFraud" num_one)) draw →
    ∃ sampled,
      balance draw df
      = Attr (Ok {| columns := columns df;
                    data := sampled ++ rows_where df "isFraud" num_one |})
      ∧ length sampled = length (rows_where df "isFraud" num_one)
      ∧ Forall2 (λ row i, rows_where df "isFraud" num_zero !! i = Some row) sampled draw
      ∧ Forall (λ row, row ∈ data df
                       ∧ eq_scalar num_zero (cell_at (columns df) row "isFraud") = true)
          sampled
      ∧ Forall (λ row, row ∈ data df
                       ∧ eq_scalar num_one (cell_at (columns df) row "isFraud") = true)
          (rows_where df "isFraud" num_one).
Proof.
  intros Hcol. unfold balance, sample, nrows. rewrite Hcol. cbn [data columns].
  destruct (_ <? _)%nat; [done|].
  intros (Hlen & Hnodup & Hlt). cbn [mbind result_bind columns data].
  pose proof (sample_rows draw _ Hlt) as Hrows.
  eexists. split; [done|].
  split; [by rewrite <- (Forall2_length _ _ _ Hrows) in Hlen|].
  split; [done|]. split.
  - apply Forall_forall. intros row Hrow.
    apply list_elem_of_lookup in Hrow as [p Hp].
    destruct (Forall2_lookup_l _ _ _ _ _ Hrows Hp) as (i & _ & Hi).
    apply list_elem_of_lookup_2, list_elem_of_filter in Hi. tauto.
  - apply Forall_forall. intros row Hrow%list_elem_of_filter. tauto.
Qed.

(** ** The labels the classifier is trained on *)

Lemma balance_labels (draw : list nat) (df bal : DataFrame num) :
  balance draw df = Attr (Ok bal) →
  columns bal = columns df
  ∧ Forall (λ row, eq_scalar num_zero (cell_at (columns df) row "isFraud") = true
                   ∨ eq_scalar num_one (cell_at (columns df) row "isFraud") = true)
      (data bal).
Proof.
  unfold balance, sample. destruct (has_column _ _); [|done].
  destruct (_ <? _)%nat; [done|]. cbn [mbind result_bind columns data].
  intros [= <-]. split; [done|]. cbn [data]. apply Forall_app. split.
  - apply Forall_forall. intros row (i & _ & Hi)%list_elem_of_omap.
    apply list_elem_of_lookup_2, list_elem_of_filter in Hi. tauto.
  - apply Forall_forall. intros row Hrow%list_elem_of_filter. tauto.
Qed.

Lemma iloc_elem_of {A} (positions : list nat) (l : list A) (x : A) :
  x ∈ iloc positions l → x ∈ l.
Proof.
  unfold iloc. intros (i & _ & Hi)%list_elem_of_omap. by eapply list_elem_of_lookup_2.
Qed.

(** The labels [y = df.isFraud] of the balanced frame are all equal to
    0 or to 1. *)
Lemma balanced_labels (draw : list nat) (df bal : DataFrame num) (y : list cell) :
  balance draw df = Attr (Ok bal) →
  getattr bal "isFraud" = Attr y →
  Forall (λ c, eq_scalar num_zero c = true ∨ eq_scalar num_one c = true) y.
Proof.
  intros [Hcols Hrows]%balance_labels. unfold getattr.
  destruct (has_column _ _); [|done]. intros [= <-].
  rewrite Hcols. by apply Forall_fmap.
Qed.

Lemma py_set_not_seen (seen values : list cell) (u : cell) :
  (∀ x : num, num_eqb x x = true) →
  u ∈ py_set seen values → u ∉ seen.
Proof.
  intros Hrefl. revert seen. induction values as [|v values IH]; intros seen; cbn.
  { by intros ?%elem_of_nil. }
  destruct (existsb (cell_eqb v) seen) eqn:E; [apply IH|].
  intros [->|Hu%IH]%elem_of_cons.
  - intros Hin. apply not_true_iff_false in E. apply E, existsb_exists.
    exists v. split; [by apply list_elem_of_In|by apply cell_eqb_refl].
  - intros Hin. apply Hu. by right.
Qed.

Lemma py_set_NoDup (seen values : list cell) :
  (∀ x : num, num_eqb x x = true) → NoDup (py_set seen values).
Proof.
  intros Hrefl. revert seen. induction values as [|v values IH]; intros seen; cbn.
  { constructor. }
  destruct (existsb (cell_eqb v) seen); [apply IH|].
  constructor; [|apply IH].
  intros Hin%py_set_not_seen; [|done]. apply Hin. left.
Qed.

End Coverage.

(** * The classes of the trained classifier *)

Lemma np_unique_two_classes (y classes : list (cell Z)) :
  Forall (λ c, c = Num 0%Z ∨ c = Num 1%Z) y →
  np_unique y = Ok classes →
  length classes = 2 →
  classes = [Num 0%Z; Num 1%Z].
Proof.
  unfold np_unique. intros Hy Hsorted Hlen.
  pose proof (py_sorted_perm _ _ Hsorted) as Hperm.
  assert (Hdup : NoDup (py_set [] y)) by (apply py_set_NoDup; intros x; apply Z.eqb_refl).
  assert (Hin : Forall (λ c, c = Num 0%Z ∨ c = Num 1%Z) (py_set [] y)).
  { apply Forall_forall. intros c Hc%py_set_elem_of.
    by apply (proj1 (Forall_forall _ _) Hy). }
  rewrite (Permutation_length Hperm) in Hlen.
  destruct (py_set [] y) as [|a [|b [|? ?]]]; try done.
  apply NoDup_cons in Hdup as [Hab _]. rewrite list_elem_of_singleton in Hab.
  apply Forall_cons in Hin as [Ha Hin]. apply Forall_cons in Hin as [Hb _].
  destruct Ha as [-> | ->], Hb as [-> | ->]; try done;
    cbn in Hsorted; by injection Hsorted as <-.
Qed.

(** C8. The service has the single route [/fraud-classifier], and an
    answer with labels only comes from a POST on it.  When the runner
    wraps the classifier the training cell fits, the labels are 0 and 1
    because the training labels are: the balancing statement keeps only
    rows with [isFraud == 0] or [isFraud == 1], so the classes the
    model learns from a training part with both are exactly 0 and 1,
    and each label of the answer is the class [model.predict] decodes
    for the row of its record, the integer 0 or 1. *)
Theorem service_labels_are_fraud_classes
    (learn : DataFrame Z → list (cell Z) → XGBClassifier Z)
    (draw train : list nat) (df bal X_train : DataFrame Z) (y : list (cell Z))
    (model : FittedModel Z) (svc : Service Z) (req : request Z) (labels : list Z) :
  balance draw df = Attr (Ok bal) →
  getattr bal "isFraud" = Attr y →
  xgb_fit learn X_train (iloc train y) = Ok model →
  length (classes_ model) = 2 →
  fraud_classifier_runner svc = booster model →
  handle svc req = Labels labels →
  classes_ model = [Num 0%Z; Num 1%Z]
  ∧ (apis svc).*1 = ["/fraud-classifier"]
  ∧ req_method req = POST
  ∧ req_path req = "/fraud-classifier"
  ∧ ∃ X,
      predict_input (ohe_encoder svc) (from_records (req_body req)) = Ok X
      ∧ Forall2 (λ l row, model_predict_row model row = Ok (Num l) ∧ (l = 0%Z ∨ l = 1%Z))
          labels (data X).
Proof.
  intros Hbal Hy Hfit Hlen Hrunner (Hmeth & Hpath & Hpred)%handle_Labels_inv.
  assert (Hclasses : classes_ model = [Num 0%Z; Num 1%Z]).
  { unfold xgb_fit in Hfit.
    destruct (np_unique (iloc train y)) as [classes|e] eqn:Hu;
      cbn [mbind result_bind] in Hfit; [|done].
    injection Hfit as <-. cbn [classes_] in *.
    apply (np_unique_two_classes (iloc train y)); [|done..].
    apply Forall_forall. intros c Hc%iloc_elem_of.
    pose proof (balanced_labels _ _ _ _ Hbal Hy) as Hall.
    apply (proj1 (Forall_forall _ _) Hall) in Hc.
    destruct c as [s|x| | |]; cbn in Hc; try by destruct Hc.
    destruct Hc as [->%Z.eqb_eq| ->%Z.eqb_eq]; auto. }
  split; [done|]. split; [done|]. split; [done|]. split; [done|].
  rewrite predict_runs_on_input in Hpred.
  destruct (predict_input _ _) as [X|e]; cbn [mbind result_bind] in Hpred; [|done].
  exists X. split; [done|].
  unfold run in Hpred. destruct (forallb _ _); [|done]. injection Hpred as <-.
  apply Forall2_fmap_l, Forall_Forall2_diag, Forall_true. intros row.
  unfold compose, model_predict_row. rewrite Hclasses, <- Hrunner.
  unfold predict_row. by destruct (proba_above_half _ row); auto.
Qed.

Lemma service_labels_are_fraud_classes_witness :
  balance [1] raw_train = Attr (Ok small_train)
  ∧ getattr small_train "isFraud" = Attr [Num 0%Z; Num 1%Z]
  ∧ xgb_fit (λ _ _, large_amount) small_training_matrix (iloc [1; 0] [Num 0%Z; Num 1%Z])
    = Ok small_model
  ∧ length (classes_ small_model) = 2
  ∧ fraud_classifier_runner small_service = booster small_model
  ∧ handle small_service example_request = Labels [1%Z]
  ∧ classes_ small_model = [Num 0%Z; Num 1%Z]
  ∧ (apis small_service).*1 = ["/fraud-classifier"]
  ∧ req_method example_request = POST
  ∧ req_path example_request = "/fraud-classifier"
  ∧ ∃ X,
      predict_input (ohe_encoder small_service) (from_records (req_body example_request))
      = Ok X
      ∧ Forall2 (λ l row, model_predict_row small_model row = Ok (Num l)
                          ∧ (l = 0%Z ∨ l = 1%Z))
          [1%Z] (data X).
Proof.
  split; [reflexivity|]. split; [reflexivity|]. split; [reflexivity|].
  split; [reflexivity|]. split; [reflexivity|]. split; [reflexivity|].
  apply (service_labels_are_fraud_classes (λ _ _, large_amount) [1] [1; 0]
           raw_train small_train small_training_matrix [Num 0%Z; Num 1%Z]
           small_model small_service example_request [1%Z]);
    reflexivity.
Defined.

(** * Concrete runs of the further properties *)

Example balance_raw_train :
  balance [1] raw_train = Attr (Ok small_train).
Proof. reflexivity. Qed.

Example balance_mostly_fraud :
  balance [0; 1] mostly_fraud
  = Attr (Raise (ValueError
            "Cannot take a larger sample than population when 'replace=False'")).
Proof. reflexivity. Qed.

Lemma handle_one_label_per_record_witness :
  handle small_service example_request = Labels [1%Z]
  ∧ length [1%Z] = length (req_body example_request).
Proof.
  split; [reflexivity|].
  apply (handle_one_label_per_record small_service example_request [1%Z]). reflexivity.
Defined.

Lemma predict_batches_compose_witness :
  [[Num 0%Z; Num 495%Z; Str "W"; Str "visa"; Str "live.com"; @NaN Z;
    Str "T"; Str "T"; Str "T"]] ≠ []
  ∧ [[Num 1%Z; Num 20%Z; Str "C"; Str "mastercard"; Str "gmail.com";
      Str "gmail.com"; @NaN Z; NaN; NaN]] ≠ []
  ∧ (predict small_enc large_amount
       {| columns := columns small_train;
          data := [[Num 0%Z; Num 495%Z; Str "W"; Str "visa"; Str "live.com"; NaN;
                    Str "T"; Str "T"; Str "T"]]
                  ++ [[Num 1%Z; Num 20%Z; Str "C"; Str "mastercard"; Str "gmail.com";
                       Str "gmail.com"; NaN; NaN; NaN]] |} = Ok [1%Z; 0%Z]
     ↔ ∃ l1 l2,
         [1%Z; 0%Z] = l1 ++ l2
         ∧ predict small_enc large_amount
             {| columns := columns small_train;
                data := [[Num 0%Z; Num 495%Z; Str "W"; Str "visa"; Str "live.com"; NaN;
                          Str "T"; Str "T"; Str "T"]] |} = Ok l1
         ∧ predict small_enc large_amount
             {| columns := columns small_train;
                data := [[Num 1%Z; Num 20%Z; Str "C"; Str "mastercard"; Str "gmail.com";
                          Str "gmail.com"; NaN; NaN; NaN]] |} = Ok l2).
Proof.
  split; [discriminate|]. split; [discriminate|].
  apply (predict_batches_compose small_enc large_amount (columns small_train));
    discriminate.
Defined.

Lemma predict_succeeds_iff_witness :
  fitted 7 small_enc
  ∧ is_unique (columns small_train) = true
  ∧ string_categories small_train = true
  ∧ ((∃ labels, predict small_enc large_amount small_train = Ok labels) ↔
       valid_frame small_train = true
       ∧ (handle_unknown small_enc = UnknownIgnore
          ∨ ∀ row j cs c,
              row ∈ data small_train →
              categories_ small_enc !! j = Some cs →
              encoder_input (columns small_train) row !! j = Some c →
              is_Some (cat_index c cs))).
Proof.
  split; [exact small_enc_fitted|]. split; [reflexivity|]. split; [reflexivity|].
  apply (predict_succeeds_iff small_enc large_amount small_train);
    [exact small_enc_fitted|reflexivity|reflexivity].
Defined.

Lemma trained_encoder_serves_witness :
  training_features small_train = Ok (small_enc, small_training_matrix)
  ∧ valid_frame (from_records unseen_card_body) = true
  ∧ ∃ labels,
      predict small_enc large_amount (from_records unseen_card_body) = Ok labels
      ∧ length labels = nrows (from_records unseen_card_body)
      ∧ ∀ i row, data (from_records unseen_card_body) !! i = Some row →
          labels !! i
          = Some (predict_row large_amount
                    (assemble_row small_enc (columns (from_records unseen_card_body)) row)).
Proof.
  split; [exact small_train_features|]. split; [reflexivity|].
  apply (trained_encoder_serves small_train (from_records unseen_card_body) small_enc
           small_training_matrix large_amount);
    [exact small_train_features|reflexivity].
Defined.

Lemma training_values_are_known_witness :
  (∀ x : Z, num_eqb x x = true)
  ∧ training_features small_train = Ok (small_enc, small_training_matrix)
  ∧ [Num 0%Z; Num 495%Z; Str "W"; Str "visa"; Str "live.com"; NaN;
     Str "T"; Str "T"; Str "T"] ∈ data small_train
  ∧ ∃ i t,
      cat_index (@NaN Z) [Str "gmail.com"; NaN] = Some i
      ∧ [Str "gmail.com"; @NaN Z] !! i = Some t
      ∧ cell_eqb (@NaN Z) t = true
      ∧ one_hot [Str "gmail.com"; NaN] (@NaN Z)
        = <[i := Num num_one]> (zeros (length [Str "gmail.com"; @NaN Z])).
Proof.
  assert (Hrefl : ∀ x : Z, num_eqb x x = true) by (intros x; apply Z.eqb_refl).
  assert (Hrow : [Num 0%Z; Num 495%Z; Str "W"; Str "visa"; Str "live.com"; NaN;
                  Str "T"; Str "T"; Str "T"] ∈ data small_train) by left.
  split; [exact Hrefl|]. split; [exact small_train_features|]. split; [exact Hrow|].
  apply (training_values_are_known small_train small_enc small_training_matrix _
           2 "R_emaildomain" [Str "gmail.com"; NaN] Hrefl small_train_features Hrow);
    reflexivity.
Defined.

Lemma small_train_has_no_NA : ∀ r, r ∈ data small_train → @NA Z ∉ r.
Proof.
  intros r Hr Hna. unfold small_train in Hr. cbn [data] in Hr.
  repeat (apply elem_of_cons in Hr as [->|Hr];
          [repeat (apply elem_of_cons in Hna as [Hna|Hna]; [discriminate Hna|]);
           by apply elem_of_nil in Hna|]).
  by apply elem_of_nil in Hr.
Qed.

Lemma serving_missing_is_zero_block_witness :
  training_features small_train = Ok (small_enc, small_training_matrix)
  ∧ (∀ r, r ∈ data small_train → @NA Z ∉ r)
  ∧ isna (cell_at (columns example_frame_nan)
            [Num 0%Z; Num 495%Z; Str "W"; Str "visa"; Str "live.com"; NaN;
             Str "T"; Str "T"; Str "T"] "R_emaildomain") = true
  ∧ ∃ before after,
      assemble_row small_enc (columns example_frame_nan)
        [Num 0%Z; Num 495%Z; Str "W"; Str "visa"; Str "live.com"; NaN;
         Str "T"; Str "T"; Str "T"]
      = before ++ zeros (length [Str "gmail.com"; @NaN Z]) ++ after
      ∧ length before = encoded_width (take 2 (categories_ small_enc)).
Proof.
  split; [exact small_train_features|]. split; [exact small_train_has_no_NA|].
  split; [reflexivity|].
  apply (serving_missing_is_zero_block small_train example_frame_nan small_enc
           small_training_matrix _ 2 "R_emaildomain" [Str "gmail.com"; NaN]
           small_train_features small_train_has_no_NA);
    reflexivity.
Defined.

Lemma example_frames_same_records :
  Forall2 (same_record (columns (from_records example_body)))
    (data (from_records example_body)) (data example_frame_nan).
Proof.
  constructor; [|constructor]. split; [|reflexivity].
  intros c Hc.
  repeat (apply elem_of_cons in Hc as [->|Hc];
          [first [left; reflexivity | right; split; reflexivity]|]).
  by apply elem_of_nil in Hc.
Qed.

Lemma predict_missing_markers_alike_witness :
  columns (from_records example_body) = columns example_frame_nan
  ∧ Forall2 (same_record (columns (from_records example_body)))
      (data (from_records example_body)) (data example_frame_nan)
  ∧ predict small_enc large_amount (from_records example_body)
    = predict small_enc large_amount example_frame_nan.
Proof.
  split; [reflexivity|]. split; [exact example_frames_same_records|].
  apply (predict_missing_markers_alike small_enc large_amount
           (from_records example_body) example_frame_nan);
    [reflexivity|exact example_frames_same_records].
Defined.

Lemma one_sits_under_its_name_witness :
  feature_names_in_ small_enc !! 3 = Some "card4"
  ∧ categories_ small_enc !! 3 = Some [Str "mastercard"; Str "visa"]
  ∧ cat_index (Str "visa") [Str "mastercard"; @Str Z "visa"] = Some 1
  ∧ ∃ t,
      [Str "mastercard"; @Str Z "visa"] !! 1 = Some t
      ∧ cell_eqb (Str "visa") t = true
      ∧ get_feature_names_out small_enc
          !! (encoded_width (take 3 (categories_ small_enc)) + 1)
        = Some ("card4" +:+ "_" +:+ py_str t)
      ∧ one_hot_row (categories_ small_enc)
          [Str "W"; Str "live.com"; NA; Str "visa"; Str "T"; Str "T"; Str "T"]
          !! (encoded_width (take 3 (categories_ small_enc)) + 1)
        = Some (Num num_one).
Proof.
  split; [reflexivity|]. split; [reflexivity|]. split; [reflexivity|].
  apply (one_sits_under_its_name small_enc
           [Str "W"; Str "live.com"; NA; Str "visa"; Str "T"; Str "T"; Str "T"]
           3 1 "card4" [Str "mastercard"; Str "visa"] (Str "visa"));
    reflexivity.
Defined.

Lemma raw_train_draw : valid_draw 2 1 [1].
Proof.
  split; [reflexivity|]. split.
  - apply NoDup_singleton.
  - repeat constructor.
Qed.

Lemma balance_classes_witness :
  has_column (columns raw_train) "isFraud" = true
  ∧ valid_draw 2 1 [1]
  ∧ ∃ sampled,
      balance [1] raw_train
      = Attr (Ok {| columns := columns raw_train;
                    data := sampled ++ rows_where raw_train "isFraud" num_one |})
      ∧ length sampled = length (rows_where raw_train "isFraud" num_one)
      ∧ Forall2 (λ row i, rows_where raw_train "isFraud" num_zero !! i = Some row)
          sampled [1]
      ∧ Forall (λ row, row ∈ data raw_train
                       ∧ eq_scalar num_zero (cell_at (columns raw_train) row "isFraud")
                         = true) sampled
      ∧ Forall (λ row, row ∈ data raw_train
                       ∧ eq_scalar num_one (cell_at (columns raw_train) row "isFraud")
                         = true) (rows_where raw_train "isFraud" num_one).
Proof.
  split; [reflexivity|]. split; [exact raw_train_draw|].
  exact (balance_classes [1] raw_train eq_refl raw_train_draw).
Defined.
